(** * root-dash: the data viewer ([root_dash_lib/data_viewer.py])

    A shallow embedding of [DataViewer.write], [DataViewer.lineplot] and
    [get_tick_range_and_spacing], together with the parts of NumPy, pandas,
    seaborn, matplotlib and Streamlit that these functions call.

    Conventions of the embedding.
    - float64 and int64 data values are idealised as exact rationals ([Q]):
      rounding error of the floating-point operations is not modelled.  The
      Python literal [1.05] is the rational 21/20 and [0.1] is 1/10.
    - Python exceptions are values of [exn]; a computation that can raise
      returns a [result].
    - pandas objects live in a store ([heap]) and are passed by reference,
      the seaborn/matplotlib color cycle is process-wide state, and what
      Streamlit was asked to display is a log; functions that touch any of
      these run in the state-and-exception monad [M]. *)

From Stdlib Require Import Ascii String ZArith QArith Qround Qabs Qpower Lia Lra Psatz.
From stdpp Require Import base option list gmap strings.

Local Open Scope Q_scope.

(** ** Exceptions and results *)

Inductive exn : Type :=
| KeyError (key : string)
| IndexError
| ValueError
| OverflowError
| ZeroDivisionError
| TypeError.

Inductive result (A : Type) : Type :=
| Ok (a : A)
| Raise (e : exn).
Arguments Ok {A} a.
Arguments Raise {A} e.

Definition rbind {A B : Type} (r : result A) (k : A -> result B) : result B :=
  match r with
  | Ok a => k a
  | Raise e => Raise e
  end.

Notation "x <-? r ; k" := (rbind r (fun x => k))
  (at level 100, r at next level, right associativity, only parsing).

(** ** NumPy scalars *)

Module Numpy.


Definition INT64_MIN : Z := (- 2 ^ 63)%Z.
Definition C_INT_MIN : Z := (- 2 ^ 31)%Z.
Definition C_INT_MAX : Z := (2 ^ 31 - 1)%Z.





Definition pow10 (k : Z) : Q := (10 # 1) ^ k.



(** Truncation toward zero: the conversion of a finite double to an
    integer. *)
Definition Qtruncate (q : Q) : Z :=
  if Qle_bool 0 q then Qfloor q else Qceiling q.


Definition wrap64 (z : Z) : Z := ((z + 2 ^ 63) mod 2 ^ 64 - 2 ^ 63)%Z.

(** Unary minus on an int64 scalar: two's complement, so the smallest
    int64 is its own negation. *)
Definition int64_neg (z : Z) : Z := wrap64 (- z).

(** [np.rint]: round to the nearest integer, ties to even. *)
Definition rint (x : Q) : Z :=
  let f := Qfloor x in
  match Qcompare (x - inject_Z f) (1 # 2) with
  | Lt => f
  | Gt => (f + 1)%Z
  | Eq => if Z.even f then f else (f + 1)%Z
  end.

Definition power_of_ten (n : Z) : Q := inject_Z (10 ^ n).

(** [np.round(a, decimals)] on a float64 scalar.  The method parses
    [decimals] as a C [int] and raises OverflowError when it does not fit.
    Then, for a positive number of decimals, the value is scaled up by the
    power of ten, rounded with [rint] and scaled back; for a negative
    number it is scaled down first. *)
Definition np_round (a : Q) (decimals : Z) : result Q :=
  if ((C_INT_MIN <=? decimals) && (decimals <=? C_INT_MAX))%Z then
    if (0 <=? decimals)%Z then
      if (decimals =? 0)%Z then Ok (inject_Z (rint a))
      else Ok (inject_Z (rint (a * power_of_ten decimals)) / power_of_ten decimals)
    else
      Ok (inject_Z (rint (a / power_of_ten (- decimals))) * power_of_ten (- decimals))
  else Raise OverflowError.




Definition Qsum (l : list Q) : Q := fold_left Qplus l 0.

End Numpy.

(** ** pandas objects *)

(** A Series: index labels and values, position by position. *)
Record Series : Type := mkSeries {
  s_index : list Q;
  s_values : list Q
}.


(** ** [get_tick_range_and_spacing] *)





(** A DataFrame: the index (the x values) and the columns in order, each
    with one value per index entry. *)
Record DataFrame : Type := mkDataFrame {
  df_index : list Q;
  df_columns : list (string * list Q)
}.

(** Lookup by label in an ordered table of labelled entries. *)
Fixpoint assoc {A : Type} (key : string) (l : list (string * A)) : option A :=
  match l with
  | [] => None
  | (k, v) :: l' => if String.eqb k key then Some v else assoc key l'
  end.

Inductive pyobj : Type :=
| PyDataFrame (df : DataFrame)
| PySeries (s : Series).

Module Pandas.

(** [df.columns] *)
Definition columns (df : DataFrame) : list string := map fst (df_columns df).

(** [df[key]] for a column label: KeyError when there is no such column. *)
Definition getitem (df : DataFrame) (key : string) : result Series :=
  match assoc key (df_columns df) with
  | Some v => Ok (mkSeries (df_index df) v)
  | None => Raise (KeyError key)
  end.

(** [df[keys]] for a list of labels: a new frame with these columns, in the
    order of [keys]; KeyError when one of the labels is not a column. *)
Fixpoint select_columns (cols : list (string * list Q)) (keys : list string)
    : result (list (string * list Q)) :=
  match keys with
  | [] => Ok []
  | key :: keys' =>
      match assoc key cols with
      | Some v =>
          rest <-? select_columns cols keys';
          Ok ((key, v) :: rest)
      | None => Raise (KeyError key)
      end
  end.

Definition getitem_list (df : DataFrame) (keys : list string) : result DataFrame :=
  cols <-? select_columns (df_columns df) keys;
  Ok (mkDataFrame (df_index df) cols).

Fixpoint cumsum_from (acc : Q) (l : list Q) : list Q :=
  match l with
  | [] => []
  | x :: l' => (acc + x) :: cumsum_from (acc + x) l'
  end.

(** Running sums along a column: the first entry is kept, every later
    entry is the previous running sum plus the value. *)
Definition cumsum (l : list Q) : list Q :=
  match l with
  | [] => []
  | x :: l' => x :: cumsum_from x l'
  end.

(** [df.cumsum(axis='rows')] and [s.cumsum()] as values. *)
Definition df_cumsum (df : DataFrame) : DataFrame :=
  mkDataFrame (df_index df) (map (fun c => (fst c, cumsum (snd c))) (df_columns df)).

Definition s_cumsum (s : Series) : Series :=
  mkSeries (s_index s) (cumsum (s_values s)).

(** [s.iloc[-1]] *)
Definition iloc_last (s : Series) : result Q :=
  match last (s_values s) with
  | Some y => Ok y
  | None => Raise IndexError
  end.

(** [index.astype(int)] *)
Definition index_astype_int (xs : list Q) : list Z := map Numpy.Qtruncate xs.

End Pandas.

(** ** matplotlib and seaborn *)

(** A color, written as matplotlib accepts it: a hex code or a letter. *)
Definition color : Type := string.

Inductive artist : Type :=
| Line2D (xs ys : list Q) (linewidth alpha : Q) (zorder : Z) (c : color)
| PathCollection (xs ys : list Q) (label : string) (zorder : Z) (c : color) (s : Q).

Record annotation : Type := mkAnnotation {
  an_text : string;
  an_xy : Q * Q;
  an_xytext : Q * Q;
  an_va : string;
  an_ha : string;
  an_stroke_linewidth : Q;
  an_stroke_foreground : color
}.

(** The axes being drawn on. *)
Record Axes : Type := mkAxes {
  ax_artists : list artist;
  ax_texts : list annotation;
  ax_yscale : string
}.

Record Legend : Type := mkLegend {
  lg_bbox_to_anchor : Q * Q;
  lg_loc : string;
  lg_framealpha : Q;
  lg_fontsize : Q;
  lg_ncol : nat;
  lg_labels : list string
}.

(** The finished figure: what was drawn and how the axes were set up.  A
    field that is [None] was left to the library's default. *)
Record Figure : Type := mkFigure {
  fig_figsize : Q * Q;
  fig_style : string;
  fig_axes : Axes;
  fig_xlim : option (Q * Q);
  fig_ylim : option (Q * Q);
  fig_xticks : list Q;
  fig_yticks : option (list Q);
  fig_legend : option Legend;
  fig_xlabel : option (string * Q);
  fig_ylabel : option (string * Q);
  fig_tick_labelsize : Q
}.

Module Matplotlib.

Definition empty_axes : Axes := mkAxes [] [] "linear".

(** [ax.plot(xs, ys, ...)]: ValueError unless [xs] and [ys] have the same
    length. *)
Definition plot (ax : Axes) (xs ys : list Q) (linewidth alpha : Q) (zorder : Z)
    (c : color) : result Axes :=
  if Nat.eqb (length xs) (length ys) then
    Ok (mkAxes (ax_artists ax ++ [Line2D xs ys linewidth alpha zorder c])
               (ax_texts ax) (ax_yscale ax))
  else Raise ValueError.

(** [ax.scatter(xs, ys, ...)]: ValueError unless [xs] and [ys] have the
    same size. *)
Definition scatter (ax : Axes) (xs ys : list Q) (label : string) (zorder : Z)
    (c : color) (s : Q) : result Axes :=
  if Nat.eqb (length xs) (length ys) then
    Ok (mkAxes (ax_artists ax ++ [PathCollection xs ys label zorder c s])
               (ax_texts ax) (ax_yscale ax))
  else Raise ValueError.

Definition annotate (ax : Axes) (a : annotation) : Axes :=
  mkAxes (ax_artists ax) (ax_texts ax ++ [a]) (ax_yscale ax).

Definition set_yscale (ax : Axes) (yscale : string) : Axes :=
  mkAxes (ax_artists ax) (ax_texts ax) yscale.

(** The label under which an artist enters the legend: a scatter carries
    the label it was given, a line drawn without one does not enter. *)
Definition artist_label (a : artist) : option string :=
  match a with
  | Line2D _ _ _ _ _ _ => None
  | PathCollection _ _ label _ _ _ => Some label
  end.

Definition starts_with_underscore (s : string) : bool :=
  match s with
  | String c _ => Ascii.eqb c "_"%char
  | EmptyString => false
  end.

Definition legend_visible (label : string) : bool :=
  negb (String.eqb label EmptyString) && negb (starts_with_underscore label).

(** The entries of [ax.legend()]: the labelled artists in drawing order,
    leaving out empty labels and labels that start with an underscore. *)
Definition legend_labels (ax : Axes) : list string :=
  filter (fun l => legend_visible l = true) (omap artist_label (ax_artists ax)).

Fixpoint chunks {A : Type} (sizes : list nat) (l : list A) : list (list A) :=
  match sizes with
  | [] => []
  | n :: sizes' => take n l :: chunks sizes' (drop n l)
  end.

(** [np.array_split(l, n)]: [n] consecutive parts, the first
    [len(l) mod n] of them one longer than the others. *)
Definition array_split {A : Type} (l : list A) (n : nat) : list (list A) :=
  let q := (length l / n)%nat in
  let r := (length l mod n)%nat in
  chunks (replicate r (S q) ++ replicate (n - r) q) l.

(** The columns in which a legend lays out its entries: the entries are
    split into [ncol] parts and the empty parts are dropped. *)
Definition legend_columns (lg : Legend) : list (list string) :=
  filter (fun col => col <> []) (array_split (lg_labels lg) (lg_ncol lg)).

(** [np.arange(start, stop, step)]: [ceil((stop - start) / step)] values
    [start + i * step]; a zero step is an error. *)
Definition arange (start stop step : Q) : result (list Q) :=
  if Qeq_bool step 0 then Raise ZeroDivisionError
  else
    let n := Z.to_nat (Qceiling ((stop - start) / step)) in
    Ok (map (fun i => start + inject_Z (Z.of_nat i) * step) (seq 0 n)).

(** The color cycle of [rcParams] in a process that has not changed it. *)
Definition default_prop_cycle : list color :=
  ["#1f77b4"; "#ff7f0e"; "#2ca02c"; "#d62728"; "#9467bd";
   "#8c564b"; "#e377c2"; "#7f7f7f"; "#bcbd22"; "#17becf"]%string.

End Matplotlib.

Module Seaborn.

(** seaborn's default palette, the one [sns.set] installs. *)
Definition deep : list color :=
  ["#4C72B0"; "#DD8452"; "#55A868"; "#C44E52"; "#8172B3";
   "#937860"; "#DA8BC3"; "#8C8C8C"; "#CCB974"; "#64B5CD"]%string.

Definition styles : list string :=
  ["white"; "dark"; "whitegrid"; "darkgrid"; "ticks"]%string.

(** [sns.plotting_context("notebook")] *)
Definition legend_fontsize : Q := 11 # 1.
Definition axes_labelsize : Q := 12 # 1.
Definition xtick_labelsize : Q := 11 # 1.

End Seaborn.

(** ** The process state *)

Definition loc : Type := positive.

(** What Streamlit was asked to show. *)
Inductive st_element : Type :=
| StText (s : string)
| StObject (o : pyobj)
| StFigure (f : Figure).

(** The state a call runs in: the store of pandas objects, the color cycle
    of [matplotlib.rcParams] (which seaborn reads and sets), and the
    elements written to the page so far. *)
Record world : Type := mkWorld {
  heap : gmap loc pyobj;
  prop_cycle : list color;
  st_written : list st_element
}.

(** Computations that read and change the state and may raise; the state
    reached when an exception is raised is kept. *)
Definition M (A : Type) : Type := world -> result A * world.

Definition ret {A : Type} (a : A) : M A := fun w => (Ok a, w).

Definition bind {A B : Type} (m : M A) (k : A -> M B) : M B :=
  fun w =>
    match m w with
    | (Ok a, w') => k a w'
    | (Raise e, w') => (Raise e, w')
    end.

Definition lift {A : Type} (r : result A) : M A := fun w => (r, w).

Notation "x <- m ;; k" := (bind m (fun x => k))
  (at level 100, m at next level, right associativity, only parsing).

Definition alloc (o : pyobj) : M loc :=
  fun w =>
    let l := fresh (dom (heap w)) in
    (Ok l, mkWorld (<[l := o]> (heap w)) (prop_cycle w) (st_written w)).

Definition load (l : loc) : M pyobj :=
  fun w =>
    match heap w !! l with
    | Some o => (Ok o, w)
    | None => (Raise TypeError, w)
    end.

Definition load_DataFrame (l : loc) : M DataFrame :=
  o <- load l ;;
  match o with
  | PyDataFrame df => ret df
  | PySeries _ => lift (Raise TypeError)
  end.

Definition load_Series (l : loc) : M Series :=
  o <- load l ;;
  match o with
  | PySeries s => ret s
  | PyDataFrame _ => lift (Raise TypeError)
  end.

(** [df.cumsum(axis='rows')]: a new object. *)
Definition DataFrame_cumsum (df : loc) : M loc :=
  dfv <- load_DataFrame df ;;
  alloc (PyDataFrame (Pandas.df_cumsum dfv)).

(** [s.cumsum()]: a new object. *)
Definition Series_cumsum (s : loc) : M loc :=
  sv <- load_Series s ;;
  alloc (PySeries (Pandas.s_cumsum sv)).

(** [df[columns]]: a new object. *)
Definition DataFrame_getitem_list (df : loc) (keys : list string) : M loc :=
  dfv <- load_DataFrame df ;;
  sel <- lift (Pandas.getitem_list dfv keys) ;;
  alloc (PyDataFrame sel).

(** [sns.color_palette()] without arguments: the current color cycle. *)
Definition sns_color_palette : M (list color) := fun w => (Ok (prop_cycle w), w).

(** [sns.set(style=style)]: checks the style name, then installs
    seaborn's default palette as the color cycle. *)
Definition sns_set (style : string) : M unit :=
  fun w =>
    if bool_decide (style ∈ Seaborn.styles) then
      (Ok tt, mkWorld (heap w) Seaborn.deep (st_written w))
    else (Raise ValueError, w).

(** [st.write(x)] *)
Definition st_write (e : st_element) : M unit :=
  fun w => (Ok tt, mkWorld (heap w) (prop_cycle w) (st_written w ++ [e])).

(** A Streamlit container; its radio widget answers with the option the
    user has selected, if any. *)
Record st_container : Type := mkContainer {
  radio : string -> list string -> option string
}.

(** ** [DataViewer.write] *)

(** [str(x)] for an optional string. *)
Definition py_str (x : option string) : string :=
  match x with
  | Some s => s
  | None => "None"
  end.

(** [data] is the dict of the dataframes, by key and in insertion order.
    The last line of the method writes [data[data_key]], not [shown_df]. *)
Definition write (data : list (string * loc)) (data_key : option string)
    (st_loc : st_container) (columns : option (list string)) : M unit :=
  let data_key :=
    match data_key with
    | None => radio st_loc "View what data?" (map fst data)
    | Some k => Some k
    end in
  match data_key ≫= (fun k => assoc k data) with
  | None => st_write (StText (py_str data_key ++ " not found in data"))
  | Some data_at_key =>
      shown_df <- match columns with
                  | Some cols => DataFrame_getitem_list data_at_key cols
                  | None => ret data_at_key
                  end ;;
      o <- load data_at_key ;;
      st_write (StObject o)
  end.

(** ** [DataViewer.lineplot] *)

(** The keyword arguments of [lineplot]. *)
Record lineplot_kw : Type := mkKw {
  categories : option (list string);
  cumulative : bool;
  x_label : option string;
  y_label : option string;
  fig_width : Q;
  fig_height : Q;
  yscale : string;
  x_lim : option (Q * Q);
  y_lim : option (Q * Q);
  xtick_spacing : option Q;
  ytick_spacing : option Q;
  font_scale : Q;
  linewidth : Q;
  marker_size : Q;
  category_colors : option (gmap string color);
  seaborn_style : string;
  include_legend : bool;
  legend_x : Q;
  legend_y : Q;
  legend_loc : string;
  legend_scale : Q;
  include_annotations : bool;
  annotations_ha : string
}.

(** The defaults of the signature; the figure size is twice the width and
    once the height of matplotlib's default [6.4 x 4.8]. *)
Definition default_kw : lineplot_kw :=
  mkKw None false None None ((64 # 10) * 2) (48 # 10) "linear" None None None None
       1 2 30 None "whitegrid" true 1 1 "lower right" 1 false "left".

(** [{ key: color_palette[i] for i, key in enumerate(categories) }] *)
Fixpoint palette_dict (i : nat) (color_palette : list color) (categories : list string)
    (acc : gmap string color) : result (gmap string color) :=
  match categories with
  | [] => Ok acc
  | key :: categories' =>
      match color_palette !! i with
      | Some c => palette_dict (S i) color_palette categories' (<[key := c]> acc)
      | None => Raise IndexError
      end
  end.

(** [d[key]] on a dict *)
Definition dict_getitem (d : gmap string color) (key : string) : result color :=
  match d !! key with
  | Some c => Ok c
  | None => Raise (KeyError key)
  end.

(** The body of the loop over the categories. *)
Definition draw_category (df : DataFrame) (xs : list Q) (kw : lineplot_kw)
    (category_colors : gmap string color) (ax : Axes) (category_j : string)
    : result Axes :=
  ys <-? Pandas.getitem df category_j;
  c <-? dict_getitem category_colors category_j;
  ax <-? Matplotlib.plot ax xs (s_values ys) (linewidth kw) (1 # 2) 2 c;
  ax <-? Matplotlib.scatter ax xs (s_values ys) category_j 2 c (marker_size kw);
  if include_annotations kw then
    label_y <-? Pandas.iloc_last ys;
    Ok (Matplotlib.annotate ax
          (mkAnnotation category_j (1, label_y)
             (- (5) + 10 * (if String.eqb (annotations_ha kw) "left" then 1 else 0), 0)
             "center" (annotations_ha kw) (25 # 10) "w"))
  else Ok ax.

Fixpoint draw_categories (df : DataFrame) (xs : list Q) (kw : lineplot_kw)
    (category_colors : gmap string color) (ax : Axes) (categories : list string)
    : result Axes :=
  match categories with
  | [] => Ok ax
  | category_j :: categories' =>
      ax <-? draw_category df xs kw category_colors ax category_j;
      draw_categories df xs kw category_colors ax categories'
  end.

Definition draw_totals (xs : list Q) (totals : Series) (kw : lineplot_kw) (ax : Axes)
    : result Axes :=
  ax <-? Matplotlib.plot ax xs (s_values totals) (linewidth kw) (1 # 2) 1 "k";
  Matplotlib.scatter ax xs (s_values totals) "Total" 1 "k" (marker_size kw).

Section Lineplot.

(** [ax.get_xlim()] and [ax.get_ylim()] when no limits were set: the view
    limits the library derives from what has been drawn. *)
Variable get_xlim : Axes -> Q * Q.
Variable get_ylim : Axes -> Q * Q.

(** The drawing part of [lineplot], from the creation of the figure to
    the tick parameters, on the data and colors resolved before it. *)
Definition lineplot_figure (df : DataFrame) (totals : option Series)
    (categories : list string) (category_colors : gmap string color)
    (kw : lineplot_kw) : result Figure :=
  let xs := df_index df in
  ax <-? draw_categories df xs kw category_colors Matplotlib.empty_axes categories;
  ax <-? match totals with
         | Some t => draw_totals xs t kw ax
         | None => Ok ax
         end;
  let ax := Matplotlib.set_yscale ax (yscale kw) in
  (* Limits *)
  let x_lim' := match x_lim kw with None => get_xlim ax | Some l => l end in
  let y_lim' := match y_lim kw with None => get_ylim ax | Some l => l end in
  (* Ticks *)
  xticks <-? match xtick_spacing kw with
             | None => Ok (map inject_Z (Pandas.index_astype_int xs))
             | Some spacing => Matplotlib.arange (fst x_lim') (snd x_lim') spacing
             end;
  yticks <-? match ytick_spacing kw with
             | Some spacing =>
                 count_ticks <-? Matplotlib.arange (fst y_lim') (snd y_lim') spacing;
                 Ok (Some count_ticks)
             | None => Ok None
             end;
  let legend :=
    if include_legend kw then
      Some (mkLegend (legend_x kw, legend_y kw) (legend_loc kw) 1
              (Seaborn.legend_fontsize * legend_scale kw)
              (length categories / 4 + 1)%nat
              (Matplotlib.legend_labels ax))
    else None in
  (* Labels, inc. size *)
  Ok (mkFigure (fig_width kw, fig_height kw) (seaborn_style kw) ax
        (x_lim kw) (y_lim kw) xticks yticks legend
        (option_map (fun l => (l, Seaborn.axes_labelsize * font_scale kw)) (x_label kw))
        (option_map (fun l => (l, Seaborn.axes_labelsize * font_scale kw)) (y_label kw))
        (Seaborn.xtick_labelsize * font_scale kw)).

Definition lineplot (df : loc) (totals : option loc) (kw : lineplot_kw) : M Figure :=
  (* Modify data if cumulative *)
  df <- (if cumulative kw then DataFrame_cumsum df else ret df) ;;
  totals <- (if cumulative kw then
               match totals with
               | Some t => t' <- Series_cumsum t ;; ret (Some t')
               | None => ret None
               end
             else ret totals) ;;
  (* the data that [df] and [totals] name from here on; nothing below
     writes to the store *)
  dfv <- load_DataFrame df ;;
  totalsv <- match totals with
             | Some t => s <- load_Series t ;; ret (Some s)
             | None => ret None
             end ;;
  (* Set defaults *)
  let categories :=
    match categories kw with
    | Some cs => cs
    | None => Pandas.columns dfv
    end in
  category_colors <-
    match category_colors kw with
    | Some d => ret d
    | None =>
        color_palette <- sns_color_palette ;;
        lift (palette_dict 0 color_palette categories ∅)
    end ;;
  _ <- sns_set (seaborn_style kw) ;;
  fig <- lift (lineplot_figure dfv totalsv categories category_colors kw) ;;
  (* Show *)
  _ <- st_write (StFigure fig) ;;
  ret fig.

End Lineplot.

(** ** Notions used to state the properties *)



(** The running sums of [l]: entry [i] is the sum of the first [i + 1]
    values. *)
Definition running_sums (l : list Q) : list Q :=
  map (fun i => Numpy.Qsum (take (S i) l)) (seq 0 (length l)).

(** The labelled series of a figure, in drawing order: label and y values
    of every scatter. *)
Definition plotted_series (fig : Figure) : list (string * list Q) :=
  omap (fun a => match a with
                 | PathCollection _ ys label _ _ _ => Some (label, ys)
                 | Line2D _ _ _ _ _ _ => None
                 end)
       (ax_artists (fig_axes fig)).

(** The y values of the connecting lines of a figure, in drawing order. *)
Definition plotted_lines (fig : Figure) : list (list Q) :=
  omap (fun a => match a with
                 | Line2D _ ys _ _ _ _ => Some ys
                 | PathCollection _ _ _ _ _ _ => None
                 end)
       (ax_artists (fig_axes fig)).

(** The colors of the category series of a figure, in drawing order. *)
Definition series_colors (fig : Figure) : list (string * color) :=
  omap (fun a => match a with
                 | PathCollection _ _ label _ c _ => Some (label, c)
                 | Line2D _ _ _ _ _ _ => None
                 end)
       (ax_artists (fig_axes fig)).

(** The categories a call draws: the ones asked for, or all columns. *)
Definition drawn_categories (kw : lineplot_kw) (df : DataFrame) : list string :=
  match categories kw with
  | Some cs => cs
  | None => Pandas.columns df
  end.

(** Every object of the first store is in the second one, unchanged. *)
Definition heap_preserved (w w' : world) : Prop :=
  forall (l : loc) (o : pyobj), heap w !! l = Some o -> heap w' !! l = Some o.

(** ** Sample inputs *)


Definition ex_df : DataFrame :=
  mkDataFrame [2020 # 1; 2021 # 1; 2022 # 1]
    [("A"%string, [1 # 1; 2 # 1; 3 # 1]); ("B"%string, [0 # 1; 1 # 1; 1 # 1])].

Definition ex_totals : Series :=
  mkSeries [2020 # 1; 2021 # 1; 2022 # 1] [1 # 1; 3 # 1; 4 # 1].

Definition short_totals : Series := mkSeries [2020 # 1; 2021 # 1] [1 # 1; 3 # 1].

Definition df_loc : loc := 1%positive.
Definition totals_loc : loc := 2%positive.
Definition short_loc : loc := 3%positive.

(** A process that has just started: the data is loaded, the color cycle
    is matplotlib's default, nothing is on the page. *)
Definition fresh_process : world :=
  mkWorld (<[short_loc := PySeries short_totals]>
             (<[totals_loc := PySeries ex_totals]>
                (<[df_loc := PyDataFrame ex_df]> ∅)))
          Matplotlib.default_prop_cycle [].

(** View limits as the library derives them on a linear axis: the range
    of the drawn values widened by 5% on each side. *)
Definition data_range (vals : list Q) : Q * Q :=
  match vals with
  | [] => (0, 1)
  | v :: vs =>
      let lo := fold_left (fun a b => if Qle_bool a b then a else b) vs v in
      let hi := fold_left (fun a b => if Qle_bool a b then b else a) vs v in
      (lo - (5 # 100) * (hi - lo), hi + (5 # 100) * (hi - lo))
  end.

Definition margins_xlim (ax : Axes) : Q * Q :=
  data_range (concat (map (fun a => match a with
                                    | Line2D xs _ _ _ _ _ => xs
                                    | PathCollection xs _ _ _ _ _ => xs
                                    end) (ax_artists ax))).

Definition margins_ylim (ax : Axes) : Q * Q :=
  data_range (concat (map (fun a => match a with
                                    | Line2D _ ys _ _ _ _ => ys
                                    | PathCollection _ ys _ _ _ _ => ys
                                    end) (ax_artists ax))).

Definition cumulative_kw : lineplot_kw :=
  mkKw None true None None ((64 # 10) * 2) (48 # 10) "linear" None None None None
       1 2 30 None "whitegrid" true 1 1 "lower right" 1 false "left".


Definition missing_kw : lineplot_kw :=
  mkKw (Some ["A"; "C"]%string) false None None ((64 # 10) * 2) (48 # 10) "linear"
       None None None None
       1 2 30 None "whitegrid" true 1 1 "lower right" 1 false "left".

Definition ex_data : list (string * loc) := [("counts"%string, df_loc)].

Definition ex_container : st_container := mkContainer (fun _ options => head options).

(** The values of column [c] of [df] (empty when there is no such
    column). *)
Definition column_values (df : DataFrame) (c : string) : list Q :=
  match assoc c (df_columns df) with
  | Some ys => ys
  | None => []
  end.

(** [totals] refers, in the store of [w], to the Series [tvo] (or there
    are no totals). *)
Definition refers_to (w : world) (totals : option loc) (tvo : option Series) : Prop :=
  match totals, tvo with
  | Some t, Some tv => heap w !! t = Some (PySeries tv)
  | None, None => True
  | _, _ => False
  end.

(** What a call of [lineplot] computes from the contents of its arguments
    and the color cycle current at the call: the figure or the exception,
    and the color cycle it leaves behind. *)
Definition lineplot_outcome (get_xlim get_ylim : Axes -> Q * Q)
    (cycle : list color) (df : DataFrame) (totals : option Series)
    (kw : lineplot_kw) : result Figure * list color :=
  let df := if cumulative kw then Pandas.df_cumsum df else df in
  let totals := if cumulative kw then option_map Pandas.s_cumsum totals else totals in
  let cats := drawn_categories kw df in
  match (match category_colors kw with
         | Some d => Ok d
         | None => palette_dict 0 cycle cats ∅
         end) with
  | Raise e => (Raise e, cycle)
  | Ok colors =>
      if bool_decide (seaborn_style kw ∈ Seaborn.styles) then
        (lineplot_figure get_xlim get_ylim df totals cats colors kw, Seaborn.deep)
      else (Raise ValueError, cycle)
  end.

(** The page after a call: the figure is appended when one was made. *)
Definition page_after (page : list st_element) (r : result Figure) : list st_element :=
  match r with
  | Ok fig => page ++ [StFigure fig]
  | Raise _ => page
  end.

(** The line and the markers of one category. *)
Definition category_artists (df : DataFrame) (kw : lineplot_kw)
    (category_colors : gmap string color) (c : string) : list artist :=
  match assoc c (df_columns df), category_colors !! c with
  | Some ys, Some col =>
      [Line2D (df_index df) ys (linewidth kw) (1 # 2) 2 col;
       PathCollection (df_index df) ys c 2 col (marker_size kw)]
  | _, _ => []
  end.

(** The line and the markers of the totals. *)
Definition totals_artists (df : DataFrame) (kw : lineplot_kw) (totals : option Series)
    : list artist :=
  match totals with
  | Some t =>
      [Line2D (df_index df) (s_values t) (linewidth kw) (1 # 2) 1 "k";
       PathCollection (df_index df) (s_values t) "Total" 1 "k" (marker_size kw)]
  | None => []
  end.

(** The limits between which the ticks are laid out: the limits given, or
    the ones the library reports for the finished axes. *)
Definition x_bounds (get_xlim : Axes -> Q * Q) (kw : lineplot_kw) (fig : Figure) : Q * Q :=
  match x_lim kw with None => get_xlim (fig_axes fig) | Some l => l end.

Definition y_bounds (get_ylim : Axes -> Q * Q) (kw : lineplot_kw) (fig : Figure) : Q * Q :=
  match y_lim kw with None => get_ylim (fig_axes fig) | Some l => l end.


(** Category [c] can be drawn: it is a column of [df] of the length of the
    index, and it has a color. *)
Definition present (df : DataFrame) (colors : gmap string color) (c : string) : Prop :=
  exists ys col,
    assoc c (df_columns df) = Some ys /\ colors !! c = Some col /\
    length (df_index df) = length ys.

(** The error classes of the specification, as the Python exceptions that
    the code raises for them: a missing key or a mismatch of shapes is a
    KeyError, an IndexError or a ValueError; an undefined computation is
    a ValueError or an OverflowError. *)
Definition ValidationError (e : exn) : Prop :=
  match e with
  | KeyError _ | IndexError | ValueError => True
  | _ => False
  end.


(** [m] never changes or removes an object of the store. *)
Definition preserves {A : Type} (m : M A) : Prop :=
  forall w r w', m w = (r, w') -> heap_preserved w w'.

(** ** Further notions and sample inputs *)


(** The position of the last occurrence of [c] in [l]. *)
Fixpoint last_index (c : string) (l : list string) : option nat :=
  match l with
  | [] => None
  | x :: l' =>
      match last_index c l' with
      | Some j => Some (S j)
      | None => if String.eqb x c then Some 0%nat else None
      end
  end.

(** The label that [lineplot] puts at the right edge for category [c]
    whose series ends at [label_y]: five points to the right of the axis
    when [annotations_ha] is "left", five points to the left otherwise. *)
Definition edge_label (kw : lineplot_kw) (c : string) (label_y : Q) : annotation :=
  mkAnnotation c (1, label_y)
    (if String.eqb (annotations_ha kw) "left" then 5 # 1 else (- 5) # 1, 0)
    "center" (annotations_ha kw) (25 # 10) "w".

(** The labels of category [c]: one at the last value of its series when
    annotations are asked for, none otherwise. *)
Definition category_labels (df : DataFrame) (kw : lineplot_kw) (c : string)
    : list annotation :=
  if include_annotations kw then
    match last (column_values df c) with
    | Some y => [edge_label kw c y]
    | None => []
    end
  else [].

Definition artist_xs (a : artist) : list Q :=
  match a with
  | Line2D xs _ _ _ _ _ => xs
  | PathCollection xs _ _ _ _ _ => xs
  end.

Definition artist_ys (a : artist) : list Q :=
  match a with
  | Line2D _ ys _ _ _ _ => ys
  | PathCollection _ ys _ _ _ _ => ys
  end.

(** The table a call draws from: the running sums in cumulative mode. *)
Definition drawn_table (kw : lineplot_kw) (df : DataFrame) : DataFrame :=
  if cumulative kw then Pandas.df_cumsum df else df.

(** Every entry of [data] refers to a dataframe of the store. *)
Definition holds_dataframes (w : world) (data : list (string * loc)) : Prop :=
  forall k l, assoc k data = Some l -> exists df, heap w !! l = Some (PyDataFrame df).

(** The key [write] looks up: the one given, or the answer of the radio. *)
Definition effective_key (data : list (string * loc)) (data_key : option string)
    (st_loc : st_container) : option string :=
  match data_key with
  | None => radio st_loc "View what data?" (map fst data)
  | Some k => Some k
  end.

(** A table with a column and no rows. *)
Definition empty_df : DataFrame := mkDataFrame [] [("A"%string, [])].

Definition empty_loc : loc := 4%positive.

(** A process whose color cycle has a single color. *)
Definition narrow_process : world :=
  mkWorld (<[empty_loc := PyDataFrame empty_df]> (<[df_loc := PyDataFrame ex_df]> ∅))
          ["#000000"%string] [].

(** A process in which seaborn's palette is already installed. *)
Definition seaborn_process : world :=
  mkWorld (heap fresh_process) Seaborn.deep [].

Definition annotated_kw : lineplot_kw :=
  mkKw None true None None ((64 # 10) * 2) (48 # 10) "linear" None None None None
       1 2 30 None "whitegrid" true 1 1 "lower right" 1 true "left".

Definition ex_colors : gmap string color :=
  <["B"%string := "red"%string]> (<["A"%string := "blue"%string]> ∅).

Definition colored_kw : lineplot_kw :=
  mkKw None false None None ((64 # 10) * 2) (48 # 10) "linear" None None None None
       1 2 30 (Some ex_colors) "whitegrid" true 1 1 "lower right" 1 false "left".

Definition repeated_kw : lineplot_kw :=
  mkKw (Some ["A"; "B"; "A"]%string) false None None ((64 # 10) * 2) (48 # 10) "linear"
       None None None None
       1 2 30 None "whitegrid" true 1 1 "lower right" 1 false "left".

Definition backwards_kw : lineplot_kw :=
  mkKw None false None None ((64 # 10) * 2) (48 # 10) "linear"
       (Some (2020 # 1, 2022 # 1)) None (Some (- 1 # 2)) None
       1 2 30 None "whitegrid" true 1 1 "lower right" 1 false "left".

Definition zero_spacing_kw : lineplot_kw :=
  mkKw None false None None ((64 # 10) * 2) (48 # 10) "linear"
       None None None (Some (0 # 1))
       1 2 30 None "whitegrid" true 1 1 "lower right" 1 false "left".

Definition bad_style_kw : lineplot_kw :=
  mkKw None false None None ((64 # 10) * 2) (48 # 10) "linear" None None None None
       1 2 30 None "grid" true 1 1 "lower right" 1 false "left".


(** * Facts about the NumPy operations *)

Module NumpyFacts.
Import Numpy.






Lemma pow10_lt (a b : Z) : (a < b)%Z -> pow10 a < pow10 b.
Proof. intros H. unfold pow10. apply Qpower_lt_compat_l; [exact H|reflexivity]. Qed.
















Lemma int64_neg_min : int64_neg INT64_MIN = INT64_MIN.
Proof. reflexivity. Qed.



Lemma np_round_overflow (a : Q) : np_round a INT64_MIN = Raise OverflowError.
Proof. reflexivity. Qed.






End NumpyFacts.

(** * The tick range *)

Module TickRange.
Import Numpy NumpyFacts.












End TickRange.

(** * The store is only ever extended *)

Module Frame.

Lemma heap_preserved_refl (w : world) : heap_preserved w w.
Proof. intros l o H. exact H. Qed.

Lemma heap_preserved_trans (w1 w2 w3 : world) :
  heap_preserved w1 w2 -> heap_preserved w2 w3 -> heap_preserved w1 w3.
Proof. intros H12 H23 l o H. apply H23, H12, H. Qed.

Lemma preserves_ret {A : Type} (a : A) : preserves (ret a).
Proof. intros w r w' H. inversion H; subst. apply heap_preserved_refl. Qed.

Lemma preserves_lift {A : Type} (r : result A) : preserves (lift r).
Proof. intros w r' w' H. inversion H; subst. apply heap_preserved_refl. Qed.

Lemma preserves_bind {A B : Type} (m : M A) (k : A -> M B) :
  preserves m -> (forall a, preserves (k a)) -> preserves (bind m k).
Proof.
  intros Hm Hk w r w' H. unfold bind in H.
  destruct (m w) as [[a|e] w1] eqn:Em.
  - eapply heap_preserved_trans; [eapply Hm; eassumption|eapply Hk; eassumption].
  - inversion H; subst. eapply Hm; eassumption.
Qed.

Lemma fresh_not_in_heap (w : world) : heap w !! fresh (dom (heap w)) = None.
Proof. apply not_elem_of_dom. apply is_fresh. Qed.

Lemma preserves_alloc (o : pyobj) : preserves (alloc o).
Proof.
  intros w r w' H. unfold alloc in H. inversion H; subst; clear H.
  intros l o' Hl. cbn [heap].
  rewrite lookup_insert_ne; [exact Hl|].
  intros <-. rewrite fresh_not_in_heap in Hl. discriminate.
Qed.

Lemma preserves_load (l : loc) : preserves (load l).
Proof.
  intros w r w' H. unfold load in H.
  destruct (heap w !! l); inversion H; subst; apply heap_preserved_refl.
Qed.

Lemma preserves_sns_color_palette : preserves sns_color_palette.
Proof. intros w r w' H. inversion H; subst. apply heap_preserved_refl. Qed.

Lemma preserves_sns_set (style : string) : preserves (sns_set style).
Proof.
  intros w r w' H. unfold sns_set in H.
  destruct (bool_decide _); inversion H; subst; intros l o Hl; exact Hl.
Qed.

Lemma preserves_st_write (e : st_element) : preserves (st_write e).
Proof. intros w r w' H. inversion H; subst. intros l o Hl. exact Hl. Qed.

Create HintDb frame.

#[export] Hint Resolve preserves_ret preserves_lift preserves_alloc preserves_load
  preserves_sns_color_palette preserves_sns_set preserves_st_write : frame.

Ltac frame_step :=
  match goal with
  | |- preserves (bind _ _) => apply preserves_bind; [|intros ?]
  | |- preserves (if ?b then _ else _) => destruct b
  | |- preserves (match ?x with _ => _ end) => destruct x
  | |- preserves _ => solve [auto with frame]
  end.

Lemma preserves_load_DataFrame (l : loc) : preserves (load_DataFrame l).
Proof. unfold load_DataFrame. repeat frame_step. Qed.

Lemma preserves_load_Series (l : loc) : preserves (load_Series l).
Proof. unfold load_Series. repeat frame_step. Qed.

#[export] Hint Resolve preserves_load_DataFrame preserves_load_Series : frame.

Lemma preserves_DataFrame_cumsum (l : loc) : preserves (DataFrame_cumsum l).
Proof. unfold DataFrame_cumsum. repeat frame_step. Qed.

Lemma preserves_Series_cumsum (l : loc) : preserves (Series_cumsum l).
Proof. unfold Series_cumsum. repeat frame_step. Qed.

Lemma preserves_DataFrame_getitem_list (l : loc) (keys : list string) :
  preserves (DataFrame_getitem_list l keys).
Proof. unfold DataFrame_getitem_list. repeat frame_step. Qed.

#[export] Hint Resolve preserves_DataFrame_cumsum preserves_Series_cumsum
  preserves_DataFrame_getitem_list : frame.

Lemma preserves_lineplot (get_xlim get_ylim : Axes -> Q * Q)
    (df : loc) (totals : option loc) (kw : lineplot_kw) :
  preserves (lineplot get_xlim get_ylim df totals kw).
Proof. unfold lineplot. repeat frame_step. Qed.

Lemma preserves_write (data : list (string * loc)) (data_key : option string)
    (st_loc : st_container) (columns : option (list string)) :
  preserves (write data data_key st_loc columns).
Proof. unfold write. repeat frame_step. Qed.

End Frame.

(** * Facts about the pandas operations *)

Module PandasFacts.

Lemma assoc_In {A : Type} (key : string) (l : list (string * A)) (v : A) :
  assoc key l = Some v -> In key (map fst l).
Proof.
  induction l as [|[k x] l IH]; cbn [assoc]; [discriminate|].
  destruct (String.eqb_spec k key) as [->|Hne]; intros H.
  - left. reflexivity.
  - right. apply IH, H.
Qed.

Lemma In_assoc {A : Type} (key : string) (l : list (string * A)) :
  In key (map fst l) -> exists v, assoc key l = Some v.
Proof.
  induction l as [|[k x] l IH]; cbn [assoc map fst In]; [contradiction|].
  destruct (String.eqb_spec k key) as [->|Hne]; intros H.
  - eexists. reflexivity.
  - destruct H as [H|H]; [contradiction|]. apply IH, H.
Qed.

Lemma assoc_cumsum (c : string) (cols : list (string * list Q)) :
  assoc c (map (fun col => (fst col, Pandas.cumsum (snd col))) cols)
  = option_map Pandas.cumsum (assoc c cols).
Proof.
  induction cols as [|[k v] cols IH]; cbn [map assoc fst snd]; [reflexivity|].
  destruct (String.eqb k c); [reflexivity|exact IH].
Qed.

Lemma column_values_cumsum (df : DataFrame) (c : string) :
  column_values (Pandas.df_cumsum df) c = Pandas.cumsum (column_values df c).
Proof.
  unfold column_values, Pandas.df_cumsum. cbn [df_columns].
  rewrite assoc_cumsum. destruct (assoc c (df_columns df)); reflexivity.
Qed.

Lemma columns_cumsum (df : DataFrame) :
  Pandas.columns (Pandas.df_cumsum df) = Pandas.columns df.
Proof.
  unfold Pandas.columns, Pandas.df_cumsum. cbn [df_columns].
  rewrite map_map. reflexivity.
Qed.

Lemma drawn_categories_cumsum (kw : lineplot_kw) (df : DataFrame) :
  drawn_categories kw (Pandas.df_cumsum df) = drawn_categories kw df.
Proof. unfold drawn_categories. rewrite columns_cumsum. reflexivity. Qed.

Lemma length_cumsum_from (l : list Q) : forall acc,
  length (Pandas.cumsum_from acc l) = length l.
Proof. induction l as [|x l IH]; intros acc; cbn; [reflexivity|]. rewrite IH. reflexivity. Qed.

Lemma length_cumsum (l : list Q) : length (Pandas.cumsum l) = length l.
Proof. destruct l; cbn; [reflexivity|]. rewrite length_cumsum_from. reflexivity. Qed.

Lemma Qsum_from (l : list Q) : forall a, fold_left Qplus l a == a + Numpy.Qsum l.
Proof.
  unfold Numpy.Qsum.
  induction l as [|x l IH]; intros a; cbn [fold_left].
  - ring.
  - rewrite (IH (a + x)), (IH (0 + x)). ring.
Qed.

Lemma Qsum_cons (x : Q) (l : list Q) : Numpy.Qsum (x :: l) == x + Numpy.Qsum l.
Proof. unfold Numpy.Qsum at 1. cbn [fold_left]. rewrite Qsum_from. ring. Qed.

Lemma cumsum_from_lookup (l : list Q) : forall (acc : Q) (i : nat) (y : Q),
  Pandas.cumsum_from acc l !! i = Some y -> y == acc + Numpy.Qsum (take (S i) l).
Proof.
  induction l as [|x l IH]; intros acc i y H; cbn [Pandas.cumsum_from] in H.
  - destruct i; discriminate.
  - destruct i as [|i]; cbn in H.
    + injection H as <-. change (take 1 (x :: l)) with [x].
      unfold Numpy.Qsum. cbn [fold_left]. ring.
    + apply IH in H. rewrite H.
      change (take (S (S i)) (x :: l)) with (x :: take (S i) l).
      rewrite Qsum_cons. ring.
Qed.

Lemma cumsum_lookup (l : list Q) (i : nat) (y : Q) :
  Pandas.cumsum l !! i = Some y -> y == Numpy.Qsum (take (S i) l).
Proof.
  destruct l as [|x l]; cbn [Pandas.cumsum]; intros H.
  - destruct i; discriminate.
  - destruct i as [|i]; cbn in H.
    + injection H as <-. change (take 1 (x :: l)) with [x].
      unfold Numpy.Qsum. cbn [fold_left]. ring.
    + apply cumsum_from_lookup in H. rewrite H.
      change (take (S (S i)) (x :: l)) with (x :: take (S i) l).
      rewrite Qsum_cons. reflexivity.
Qed.

(** [cumsum] computes the running sums. *)
Lemma cumsum_running_sums (l : list Q) :
  Forall2 Qeq (Pandas.cumsum l) (running_sums l).
Proof.
  apply Forall2_same_length_lookup. split.
  - unfold running_sums. rewrite length_cumsum, length_map, length_seq. reflexivity.
  - intros i x y Hx Hy. unfold running_sums in Hy.
    rewrite list_lookup_fmap in Hy.
    destruct (seq 0 (length l) !! i) as [j|] eqn:Ej; [|discriminate].
    apply lookup_seq in Ej. destruct Ej as [-> _]. cbn in Hy.
    inversion Hy; subst. apply cumsum_lookup. exact Hx.
Qed.

Lemma select_columns_ok (cols : list (string * list Q)) (keys : list string) :
  Forall (fun k => In k (map fst cols)) keys ->
  exists sel, Pandas.select_columns cols keys = Ok sel.
Proof.
  induction 1 as [|k keys Hk _ [sel IH]]; cbn [Pandas.select_columns].
  - eexists. reflexivity.
  - destruct (In_assoc k cols Hk) as [v ->]. rewrite IH. cbn [rbind].
    eexists. reflexivity.
Qed.

Lemma select_columns_missing (cols : list (string * list Q)) (keys : list string) :
  ~ Forall (fun k => In k (map fst cols)) keys ->
  exists k, Pandas.select_columns cols keys = Raise (KeyError k) /\
            In k keys /\ ~ In k (map fst cols).
Proof.
  induction keys as [|k keys IH]; intros Hn.
  - exfalso. apply Hn. constructor.
  - cbn [Pandas.select_columns].
    destruct (assoc k cols) as [v|] eqn:E.
    + destruct IH as (k' & -> & Hin & Hnot).
      { intros Hall. apply Hn. constructor; [eapply assoc_In, E|exact Hall]. }
      exists k'. cbn [rbind]. split; [reflexivity|]. split; [right; exact Hin|exact Hnot].
    + exists k. split; [reflexivity|]. split; [left; reflexivity|].
      intros Hin. destruct (In_assoc k cols Hin) as [v Hv]. congruence.
Qed.

Lemma present_cumsum (df : DataFrame) (colors : gmap string color) (c : string) :
  present (Pandas.df_cumsum df) colors c -> present df colors c.
Proof.
  intros (ys & col & Hys & Hcol & Hlen).
  unfold Pandas.df_cumsum in Hys, Hlen. cbn [df_columns df_index] in Hys, Hlen.
  rewrite assoc_cumsum in Hys.
  destruct (assoc c (df_columns df)) as [ys0|] eqn:E; [|discriminate].
  injection Hys as <-. rewrite length_cumsum in Hlen.
  exists ys0, col. auto.
Qed.

Lemma present_column (df : DataFrame) (colors : gmap string color) (c : string) :
  present df colors c -> In c (Pandas.columns df).
Proof. intros (ys & col & Hys & _). eapply assoc_In, Hys. Qed.

End PandasFacts.

(** * Facts about the drawing steps *)

Module Draw.
Import PandasFacts.

Lemma draw_category_inv (df : DataFrame) (kw : lineplot_kw)
    (colors : gmap string color) (ax ax' : Axes) (c : string) :
  draw_category df (df_index df) kw colors ax c = Ok ax' ->
  (exists ys col,
      assoc c (df_columns df) = Some ys /\ colors !! c = Some col /\
      length (df_index df) = length ys) /\
  ax_artists ax' = ax_artists ax ++ category_artists df kw colors c /\
  ax_yscale ax' = ax_yscale ax.
Proof.
  unfold draw_category, Pandas.getitem, dict_getitem, category_artists.
  destruct (assoc c (df_columns df)) as [ys|]; cbn [rbind]; [|discriminate].
  destruct (colors !! c) as [col|]; cbn [rbind]; [|discriminate].
  unfold Matplotlib.plot, Matplotlib.scatter. cbn [s_values ax_artists].
  destruct (Nat.eqb_spec (length (df_index df)) (length ys)) as [Hlen|Hlen];
    cbn [rbind ax_artists ax_texts ax_yscale]; [|discriminate].
  destruct (Nat.eqb_spec (length (df_index df)) (length ys)) as [_|Hlen'];
    cbn [rbind ax_artists ax_texts ax_yscale]; [|contradiction].
  intros H.
  assert (Hax : ax_artists ax' =
                (ax_artists ax ++ [Line2D (df_index df) ys (linewidth kw) (1 # 2) 2 col])
                  ++ [PathCollection (df_index df) ys c 2 col (marker_size kw)]
                /\ ax_yscale ax' = ax_yscale ax).
  { destruct (include_annotations kw).
    - destruct (Pandas.iloc_last _); cbn [rbind] in H; [|discriminate].
      inversion H; subst. split; reflexivity.
    - inversion H; subst. split; reflexivity. }
  destruct Hax as [Hart Hsc].
  split; [exists ys, col; auto|]. split; [|exact Hsc].
  rewrite Hart, <- app_assoc. reflexivity.
Qed.

Lemma draw_categories_inv (df : DataFrame) (kw : lineplot_kw)
    (colors : gmap string color) (cats : list string) : forall ax ax',
  draw_categories df (df_index df) kw colors ax cats = Ok ax' ->
  Forall (fun c => exists ys col,
              assoc c (df_columns df) = Some ys /\ colors !! c = Some col /\
              length (df_index df) = length ys) cats /\
  ax_artists ax' = ax_artists ax ++ flat_map (category_artists df kw colors) cats /\
  ax_yscale ax' = ax_yscale ax.
Proof.
  induction cats as [|c cats IH]; intros ax ax' H; cbn [draw_categories] in H.
  - inversion H; subst. split; [constructor|]. cbn [flat_map].
    rewrite app_nil_r. split; reflexivity.
  - destruct (draw_category df (df_index df) kw colors ax c) as [ax1|e] eqn:E;
      cbn [rbind] in H; [|discriminate].
    destruct (draw_category_inv _ _ _ _ _ _ E) as (Hc & Ha & Hs).
    destruct (IH _ _ H) as (Hall & Ha' & Hs').
    split; [constructor; assumption|].
    split; [|congruence].
    rewrite Ha', Ha. cbn [flat_map]. rewrite <- app_assoc. reflexivity.
Qed.

Lemma draw_totals_inv (df : DataFrame) (kw : lineplot_kw) (t : Series) (ax ax' : Axes) :
  draw_totals (df_index df) t kw ax = Ok ax' ->
  length (df_index df) = length (s_values t) /\
  ax_artists ax' = ax_artists ax ++ totals_artists df kw (Some t) /\
  ax_yscale ax' = ax_yscale ax.
Proof.
  unfold draw_totals, Matplotlib.plot, Matplotlib.scatter.
  destruct (Nat.eqb_spec (length (df_index df)) (length (s_values t))) as [Hlen|Hlen];
    cbn [rbind]; [|discriminate].
  intros H. inversion H; subst. cbn [ax_artists ax_yscale totals_artists].
  split; [exact Hlen|]. split; [|reflexivity].
  rewrite <- app_assoc. reflexivity.
Qed.

Lemma draw_totals_mismatch (xs : list Q) (kw : lineplot_kw) (t : Series) (ax : Axes) :
  length (s_values t) <> length xs -> draw_totals xs t kw ax = Raise ValueError.
Proof.
  intros H. unfold draw_totals, Matplotlib.plot.
  destruct (Nat.eqb_spec (length xs) (length (s_values t))) as [Hlen|Hlen]; [|reflexivity].
  congruence.
Qed.

Lemma draw_category_raises (df : DataFrame) (kw : lineplot_kw)
    (colors : gmap string color) (ax : Axes) (c : string) (e : exn) :
  draw_category df (df_index df) kw colors ax c = Raise e -> ValidationError e.
Proof.
  unfold draw_category, Pandas.getitem, dict_getitem.
  destruct (assoc c (df_columns df)) as [ys|]; cbn [rbind];
    [|intros H; injection H as <-; exact I].
  destruct (colors !! c) as [col|]; cbn [rbind];
    [|intros H; injection H as <-; exact I].
  unfold Matplotlib.plot, Matplotlib.scatter. cbn [s_values ax_artists].
  destruct (Nat.eqb (length (df_index df)) (length ys)); cbn [rbind];
    [|intros H; injection H as <-; exact I].
  destruct (include_annotations kw); [|discriminate].
  unfold Pandas.iloc_last. cbn [s_values].
  destruct (last ys); cbn [rbind]; [discriminate|].
  intros H; injection H as <-; exact I.
Qed.

Lemma draw_categories_raises (df : DataFrame) (kw : lineplot_kw)
    (colors : gmap string color) (cats : list string) (e : exn) : forall ax,
  draw_categories df (df_index df) kw colors ax cats = Raise e -> ValidationError e.
Proof.
  induction cats as [|c cats IH]; intros ax H; cbn [draw_categories] in H; [discriminate|].
  destruct (draw_category df (df_index df) kw colors ax c) as [ax1|e1] eqn:E;
    cbn [rbind] in H.
  - eapply IH, H.
  - injection H as <-. eapply draw_category_raises, E.
Qed.

Lemma palette_dict_raises (cycle : list color) (cats : list string) (e : exn) :
  forall i acc, palette_dict i cycle cats acc = Raise e -> e = IndexError.
Proof.
  induction cats as [|c cats IH]; intros i acc H; cbn [palette_dict] in H; [discriminate|].
  destruct (cycle !! i); [eapply IH, H|]. injection H as <-. reflexivity.
Qed.

Lemma palette_dict_lookup (cycle : list color) (cats : list string) :
  forall (i : nat) (acc colors : gmap string color),
    palette_dict i cycle cats acc = Ok colors ->
    NoDup cats ->
    (forall (j : nat) (c : string), cats !! j = Some c -> colors !! c = cycle !! (i + j)%nat) /\
    (forall c, ~ In c cats -> colors !! c = acc !! c).
Proof.
  induction cats as [|c cats IH]; intros i acc colors H Hnd; cbn [palette_dict] in H.
  - injection H as <-. split; [intros j c Hj; destruct j; discriminate|auto].
  - destruct (cycle !! i) as [col|] eqn:Ei; [|discriminate].
    apply NoDup_cons in Hnd. destruct Hnd as [Hnin Hnd].
    destruct (IH _ _ _ H Hnd) as [Hin Hout].
    split.
    + intros [|j] c' Hj; cbn in Hj.
      * injection Hj as <-. rewrite Hout by (rewrite <- list_elem_of_In; exact Hnin).
        rewrite lookup_insert_eq, Nat.add_0_r, Ei. reflexivity.
      * rewrite (Hin j c' Hj). f_equal. lia.
    + intros c' Hc'. rewrite Hout by (intros Hi; apply Hc'; right; exact Hi).
      apply lookup_insert_ne. intros ->. apply Hc'. left. reflexivity.
Qed.

Section Figure.

Variable get_xlim : Axes -> Q * Q.
Variable get_ylim : Axes -> Q * Q.

(** Everything a returned figure holds, in terms of the inputs. *)
Lemma lineplot_figure_inv (df : DataFrame) (tvo : option Series) (cats : list string)
    (colors : gmap string color) (kw : lineplot_kw) (fig : Figure) :
  lineplot_figure get_xlim get_ylim df tvo cats colors kw = Ok fig ->
  Forall (fun c => exists ys col,
              assoc c (df_columns df) = Some ys /\ colors !! c = Some col /\
              length (df_index df) = length ys) cats /\
  (forall t, tvo = Some t -> length (df_index df) = length (s_values t)) /\
  ax_artists (fig_axes fig)
    = flat_map (category_artists df kw colors) cats ++ totals_artists df kw tvo /\
  ax_yscale (fig_axes fig) = yscale kw /\
  (match xtick_spacing kw with
   | None => fig_xticks fig = map inject_Z (Pandas.index_astype_int (df_index df))
   | Some spacing =>
       Matplotlib.arange (fst (x_bounds get_xlim kw fig)) (snd (x_bounds get_xlim kw fig)) spacing
         = Ok (fig_xticks fig)
   end) /\
  (match ytick_spacing kw with
   | None => fig_yticks fig = None
   | Some spacing =>
       exists ticks, fig_yticks fig = Some ticks /\
         Matplotlib.arange (fst (y_bounds get_ylim kw fig)) (snd (y_bounds get_ylim kw fig)) spacing
           = Ok ticks
   end) /\
  fig_legend fig =
    (if include_legend kw then
       Some (mkLegend (legend_x kw, legend_y kw) (legend_loc kw) 1
               (Seaborn.legend_fontsize * legend_scale kw)
               (length cats / 4 + 1)%nat
               (Matplotlib.legend_labels (fig_axes fig)))
     else None) /\
  fig_xlim fig = x_lim kw /\ fig_ylim fig = y_lim kw.
Proof.
  unfold lineplot_figure. intros H.
  destruct (draw_categories df (df_index df) kw colors Matplotlib.empty_axes cats)
    as [ax1|e] eqn:E1; cbn [rbind] in H; [|discriminate].
  destruct (draw_categories_inv _ _ _ _ _ _ E1) as (Hall & Ha1 & Hs1).
  cbn [Matplotlib.empty_axes ax_artists app] in Ha1.
  assert (Htot : exists ax2,
             (match tvo with Some t => draw_totals (df_index df) t kw ax1 | None => Ok ax1 end)
               = Ok ax2 /\
             (forall t, tvo = Some t -> length (df_index df) = length (s_values t)) /\
             ax_artists ax2 = ax_artists ax1 ++ totals_artists df kw tvo).
  { destruct tvo as [t|].
    - destruct (draw_totals (df_index df) t kw ax1) as [ax2|e] eqn:E2;
        cbn [rbind] in H; [|discriminate].
      destruct (draw_totals_inv _ _ _ _ _ E2) as (Hlen & Ha2 & _).
      exists ax2. split; [reflexivity|]. split; [|exact Ha2].
      intros t' Ht'. inversion Ht'; subst. exact Hlen.
    - exists ax1. split; [reflexivity|]. split; [discriminate|].
      cbn [totals_artists]. rewrite app_nil_r. reflexivity. }
  destruct Htot as (ax2 & E2 & Hlen & Ha2).
  rewrite E2 in H. cbn [rbind] in H.
  set (ax := Matplotlib.set_yscale ax2 (yscale kw)) in *.
  destruct (match xtick_spacing kw with
            | Some spacing => _
            | None => _
            end) as [xticks|e] eqn:EX; cbn [rbind] in H; [|discriminate].
  destruct (match ytick_spacing kw with
            | Some spacing => _
            | None => _
            end) as [yticks|e] eqn:EY; cbn [rbind] in H; [|discriminate].
  inversion H; subst fig; clear H.
  unfold x_bounds, y_bounds. cbn [fig_axes fig_xticks fig_yticks fig_legend fig_xlim fig_ylim].
  split; [exact Hall|]. split; [exact Hlen|].
  split; [unfold ax; cbn [Matplotlib.set_yscale ax_artists]; rewrite Ha2, Ha1; reflexivity|].
  split; [reflexivity|].
  split.
  { destruct (xtick_spacing kw); [exact EX|]. inversion EX; reflexivity. }
  split.
  { destruct (ytick_spacing kw) as [sp|].
    - destruct (Matplotlib.arange _ _ sp) as [t|e] eqn:EA; cbn [rbind] in EY; [|discriminate].
      inversion EY; subst. exists t. split; reflexivity.
    - inversion EY; reflexivity. }
  split; [reflexivity|]. split; reflexivity.
Qed.

End Figure.

(** The inputs of a call are malformed: a category to draw is not a column
    of the table, or the totals do not have the length of the index. *)
Lemma malformed_figure_raises (get_xlim get_ylim : Axes -> Q * Q)
    (df : DataFrame) (tvo : option Series) (cats : list string)
    (colors : gmap string color) (kw : lineplot_kw) :
  (exists c, In c cats /\ ~ In c (Pandas.columns df)) \/
  (exists t, tvo = Some t /\ length (s_values t) <> length (df_index df)) ->
  exists e, lineplot_figure get_xlim get_ylim df tvo cats colors kw = Raise e /\
            ValidationError e.
Proof.
  intros Hbad. unfold lineplot_figure.
  destruct (draw_categories df (df_index df) kw colors Matplotlib.empty_axes cats)
    as [ax1|e] eqn:E1; cbn [rbind].
  - destruct (draw_categories_inv _ _ _ _ _ _ E1) as (Hall & _ & _).
    destruct Hbad as [(c & Hin & Hnot)|(t & -> & Hne)].
    + exfalso. rewrite List.Forall_forall in Hall.
      apply Hnot, (present_column df colors), Hall, Hin.
    + rewrite (draw_totals_mismatch _ _ _ _ Hne). cbn [rbind].
      exists ValueError. split; [reflexivity|exact I].
  - exists e. split; [reflexivity|]. eapply draw_categories_raises, E1.
Qed.

Lemma series_of_artists (df : DataFrame) (kw : lineplot_kw) (colors : gmap string color)
    (tvo : option Series) (cats : list string) (fig : Figure) :
  Forall (present df colors) cats ->
  ax_artists (fig_axes fig)
    = flat_map (category_artists df kw colors) cats ++ totals_artists df kw tvo ->
  plotted_series fig
    = map (fun c => (c, column_values df c)) cats
      ++ match tvo with Some t => [("Total"%string, s_values t)] | None => [] end.
Proof.
  intros Hall Hart. unfold plotted_series. rewrite Hart. clear Hart.
  rewrite omap_app. f_equal.
  - induction Hall as [|c cats (ys & col & Hys & Hcol & _) _ IH]; [reflexivity|].
    cbn [flat_map map]. rewrite omap_app, IH.
    unfold category_artists, column_values. rewrite Hys, Hcol. reflexivity.
  - destruct tvo; reflexivity.
Qed.

Lemma lines_of_artists (df : DataFrame) (kw : lineplot_kw) (colors : gmap string color)
    (tvo : option Series) (cats : list string) (fig : Figure) :
  Forall (present df colors) cats ->
  ax_artists (fig_axes fig)
    = flat_map (category_artists df kw colors) cats ++ totals_artists df kw tvo ->
  plotted_lines fig
    = map (column_values df) cats
      ++ match tvo with Some t => [s_values t] | None => [] end.
Proof.
  intros Hall Hart. unfold plotted_lines. rewrite Hart. clear Hart.
  rewrite omap_app. f_equal.
  - induction Hall as [|c cats (ys & col & Hys & Hcol & _) _ IH]; [reflexivity|].
    cbn [flat_map map]. rewrite omap_app, IH.
    unfold category_artists, column_values. rewrite Hys, Hcol. reflexivity.
  - destruct tvo; reflexivity.
Qed.

Lemma labels_of_artists (df : DataFrame) (kw : lineplot_kw) (colors : gmap string color)
    (tvo : option Series) (cats : list string) (ax : Axes) :
  Forall (present df colors) cats ->
  ax_artists ax
    = flat_map (category_artists df kw colors) cats ++ totals_artists df kw tvo ->
  omap Matplotlib.artist_label (ax_artists ax)
    = cats ++ match tvo with Some _ => ["Total"%string] | None => [] end.
Proof.
  intros Hall Hart. rewrite Hart. clear Hart.
  rewrite omap_app. f_equal.
  - induction Hall as [|c cats (ys & col & Hys & Hcol & _) _ IH]; [reflexivity|].
    cbn [flat_map]. rewrite omap_app, IH.
    unfold category_artists. rewrite Hys, Hcol. reflexivity.
  - destruct tvo; reflexivity.
Qed.

Lemma colors_of_artists (df : DataFrame) (kw : lineplot_kw) (colors : gmap string color)
    (tvo : option Series) (cats : list string) (fig : Figure) :
  Forall (present df colors) cats ->
  ax_artists (fig_axes fig)
    = flat_map (category_artists df kw colors) cats ++ totals_artists df kw tvo ->
  series_colors fig
    = map (fun c => (c, default (EmptyString : color) (colors !! c))) cats
      ++ match tvo with Some _ => [("Total"%string, "k"%string)] | None => [] end.
Proof.
  intros Hall Hart. unfold series_colors. rewrite Hart. clear Hart.
  rewrite omap_app. f_equal.
  - induction Hall as [|c cats (ys & col & Hys & Hcol & _) _ IH]; [reflexivity|].
    cbn [flat_map map]. rewrite omap_app, IH. cbv beta.
    unfold category_artists. rewrite Hys, Hcol. reflexivity.
  - destruct tvo; reflexivity.
Qed.

Lemma chunks_lengths {A : Type} (sizes : list nat) : forall l : list A,
  Forall2 (fun s col => (length col <= s)%nat) sizes (Matplotlib.chunks sizes l).
Proof.
  induction sizes as [|s sizes IH]; intros l; cbn [Matplotlib.chunks]; constructor.
  - rewrite length_take. lia.
  - apply IH.
Qed.

Lemma chunks_concat {A : Type} (sizes : list nat) : forall l : list A,
  concat (Matplotlib.chunks sizes l) = take (sum_list sizes) l.
Proof.
  induction sizes as [|s sizes IH]; intros l; cbn [Matplotlib.chunks concat sum_list].
  - rewrite take_0. reflexivity.
  - rewrite IH. apply take_take_drop.
Qed.

Lemma array_split_concat {A : Type} (l : list A) (n : nat) :
  (0 < n)%nat -> concat (Matplotlib.array_split l n) = l.
Proof.
  intros Hn. unfold Matplotlib.array_split. rewrite chunks_concat.
  apply take_ge. rewrite sum_list_with_app, !sum_list_replicate.
  pose proof (Nat.div_mod_eq (length l) n) as Hdm.
  pose proof (Nat.mod_upper_bound (length l) n ltac:(lia)) as Hr.
  nia.
Qed.

Lemma array_split_lengths {A : Type} (l : list A) (n bound : nat) :
  (0 < n)%nat -> (length l <= bound * n)%nat ->
  Forall (fun col => (length col <= bound)%nat) (Matplotlib.array_split l n).
Proof.
  intros Hn Hb. unfold Matplotlib.array_split.
  pose proof (Nat.div_mod_eq (length l) n) as Hdm.
  pose proof (Nat.mod_upper_bound (length l) n ltac:(lia)) as Hr.
  set (q := (length l / n)%nat) in *. set (r := (length l mod n)%nat) in *.
  assert (Hsizes : Forall (fun s => (s <= bound)%nat)
                     (replicate r (S q) ++ replicate (n - r)%nat q)).
  { apply Forall_app. split.
    - destruct r as [|r']; [constructor|]. apply Forall_replicate. nia.
    - destruct (Nat.eq_dec (n - r)%nat 0%nat) as [->|Hne]; [constructor|].
      apply Forall_replicate. nia. }
  pose proof (chunks_lengths (replicate r (S q) ++ replicate (n - r)%nat q) l) as H2.
  revert Hsizes H2.
  generalize (Matplotlib.chunks (replicate r (S q) ++ replicate (n - r)%nat q) l).
  generalize (replicate r (S q) ++ replicate (n - r)%nat q).
  intros sizes cols Hs H2. revert Hs.
  induction H2 as [|s col sizes cols Hle _ IH]; intros Hs; [constructor|].
  inversion Hs; subst. constructor; [lia|auto].
Qed.

Lemma concat_filter_nonempty {A : Type} `{EqDecision A} (ls : list (list A)) :
  concat (filter (fun col => col <> []) ls) = concat ls.
Proof.
  induction ls as [|x ls IH]; [reflexivity|].
  rewrite filter_cons. destruct (decide (x <> [])) as [H|H].
  - cbn [concat]. rewrite IH. reflexivity.
  - assert (x = []) as -> by (destruct x; [reflexivity|exfalso; apply H; discriminate]).
    cbn [concat app]. exact IH.
Qed.

(** With [ncol = n / 4 + 1] columns, a legend of at most [n + 1] entries
    places all of them, at most four to a column. *)
Lemma legend_columns_spec (lg : Legend) (n : nat) :
  lg_ncol lg = (n / 4 + 1)%nat ->
  (length (lg_labels lg) <= n + 1)%nat ->
  concat (Matplotlib.legend_columns lg) = lg_labels lg /\
  Forall (fun col => (length col <= 4)%nat) (Matplotlib.legend_columns lg).
Proof.
  intros Hncol Hlen. unfold Matplotlib.legend_columns. rewrite Hncol.
  split.
  - rewrite concat_filter_nonempty. apply array_split_concat. lia.
  - apply List.Forall_forall. intros col Hin.
    apply list_elem_of_In, list_elem_of_filter in Hin. destruct Hin as [_ Hin].
    apply list_elem_of_In in Hin. revert col Hin. apply List.Forall_forall.
    apply array_split_lengths; [lia|].
    pose proof (Nat.div_mod_eq n 4) as Hdm.
    pose proof (Nat.mod_upper_bound n 4 ltac:(lia)) as Hr. lia.
Qed.

Lemma Qdiv_mult_cancel (d s : Q) : ~ s == 0 -> d / s * s == d.
Proof. intros H. field. exact H. Qed.


End Draw.

(** * Running [lineplot] and [write] *)

Module Run.
Import Frame PandasFacts Draw.

Lemma bind_ok {A B : Type} (m : M A) (k : A -> M B) (w w1 : world) (a : A) :
  m w = (Ok a, w1) -> bind m k w = k a w1.
Proof. intros H. unfold bind. rewrite H. reflexivity. Qed.

Lemma bind_raise {A B : Type} (m : M A) (k : A -> M B) (w w1 : world) (e : exn) :
  m w = (Raise e, w1) -> bind m k w = (Raise e, w1).
Proof. intros H. unfold bind. rewrite H. reflexivity. Qed.

Lemma load_DataFrame_run (l : loc) (w : world) (d : DataFrame) :
  heap w !! l = Some (PyDataFrame d) -> load_DataFrame l w = (Ok d, w).
Proof. intros H. unfold load_DataFrame, bind, load. rewrite H. reflexivity. Qed.

Lemma load_Series_run (l : loc) (w : world) (s : Series) :
  heap w !! l = Some (PySeries s) -> load_Series l w = (Ok s, w).
Proof. intros H. unfold load_Series, bind, load. rewrite H. reflexivity. Qed.

Lemma alloc_run (o : pyobj) (w : world) :
  exists l w1,
    alloc o w = (Ok l, w1) /\
    heap w !! l = None /\
    heap w1 !! l = Some o /\
    (forall l', l' <> l -> heap w1 !! l' = heap w !! l') /\
    prop_cycle w1 = prop_cycle w /\
    st_written w1 = st_written w.
Proof.
  exists (fresh (dom (heap w))), (mkWorld (<[fresh (dom (heap w)) := o]> (heap w))
                                     (prop_cycle w) (st_written w)).
  split; [reflexivity|]. split; [apply Frame.fresh_not_in_heap|].
  cbn [heap prop_cycle st_written].
  split; [apply lookup_insert_eq|].
  split; [|split; reflexivity].
  intros l' Hne. apply lookup_insert_ne. congruence.
Qed.

(** The first step of [lineplot]: the objects that [df] and [totals]
    name afterwards hold the running sums in cumulative mode and are the
    arguments themselves otherwise. *)
Lemma prepare_run (kw : lineplot_kw) (df : loc) (totals : option loc)
    (w : world) (dfv : DataFrame) (tvo : option Series) :
  heap w !! df = Some (PyDataFrame dfv) ->
  refers_to w totals tvo ->
  exists df' totals' w2,
    (if cumulative kw then DataFrame_cumsum df else ret df) w = (Ok df', fst w2) /\
    (if cumulative kw then
       match totals with
       | Some t => t' <- Series_cumsum t ;; ret (Some t')
       | None => ret None
       end
     else ret totals) (fst w2) = (Ok totals', snd w2) /\
    heap (snd w2) !! df' =
      Some (PyDataFrame (if cumulative kw then Pandas.df_cumsum dfv else dfv)) /\
    refers_to (snd w2) totals'
      (if cumulative kw then option_map Pandas.s_cumsum tvo else tvo) /\
    prop_cycle (snd w2) = prop_cycle w /\
    st_written (snd w2) = st_written w.
Proof.
  intros Hdf Ht. destruct (cumulative kw).
  - unfold DataFrame_cumsum.
    destruct (alloc_run (PyDataFrame (Pandas.df_cumsum dfv)) w)
      as (l1 & w1 & Ha & Hfresh & Hl1 & Hother & Hc & Hs).
    destruct totals as [t|], tvo as [tv|]; cbn [refers_to] in Ht; try contradiction.
    + assert (Htl : t <> l1) by congruence.
      destruct (alloc_run (PySeries (Pandas.s_cumsum tv)) w1)
        as (l2 & w2 & Ha2 & Hfresh2 & Hl2 & Hother2 & Hc2 & Hs2).
      assert (Hll : l1 <> l2) by congruence.
      exists l1, (Some l2), (w1, w2). cbn [fst snd].
      split; [erewrite bind_ok by (apply load_DataFrame_run; exact Hdf); exact Ha|].
      split.
      { unfold Series_cumsum.
        erewrite bind_ok.
        2:{ erewrite bind_ok.
            2:{ apply load_Series_run. rewrite Hother by exact Htl. exact Ht. }
            exact Ha2. }
        reflexivity. }
      split; [rewrite Hother2 by exact Hll; exact Hl1|].
      split; [exact Hl2|]. split; congruence.
    + exists l1, None, (w1, w1). cbn [fst snd].
      split; [erewrite bind_ok by (apply load_DataFrame_run; exact Hdf); exact Ha|].
      split; [reflexivity|]. split; [exact Hl1|]. split; [exact I|]. split; assumption.
  - exists df, totals, (w, w). cbn [fst snd].
    split; [reflexivity|]. split; [reflexivity|]. split; [exact Hdf|].
    split; [exact Ht|]. split; reflexivity.
Qed.

Section Eval.

Variable get_xlim : Axes -> Q * Q.
Variable get_ylim : Axes -> Q * Q.

(** A call of [lineplot] returns or raises what [lineplot_outcome] says,
    leaves the color cycle it says, and writes the figure, if there is
    one, to the page. *)
Lemma lineplot_eval (df : loc) (totals : option loc) (kw : lineplot_kw)
    (w : world) (dfv : DataFrame) (tvo : option Series) :
  heap w !! df = Some (PyDataFrame dfv) ->
  refers_to w totals tvo ->
  exists w',
    lineplot get_xlim get_ylim df totals kw w
      = (fst (lineplot_outcome get_xlim get_ylim (prop_cycle w) dfv tvo kw), w') /\
    prop_cycle w' = snd (lineplot_outcome get_xlim get_ylim (prop_cycle w) dfv tvo kw) /\
    st_written w' =
      page_after (st_written w)
        (fst (lineplot_outcome get_xlim get_ylim (prop_cycle w) dfv tvo kw)).
Proof.
  intros Hdf Ht.
  destruct (prepare_run kw df totals w dfv tvo Hdf Ht)
    as (df' & totals' & [w1 w2] & H1 & H2 & Hdf' & Ht' & Hc & Hs).
  cbn [fst snd] in *.
  unfold lineplot.
  erewrite bind_ok by exact H1.
  erewrite bind_ok by exact H2.
  erewrite bind_ok by (apply load_DataFrame_run; exact Hdf').
  set (dfv' := if cumulative kw then Pandas.df_cumsum dfv else dfv) in *.
  set (tvo' := if cumulative kw then option_map Pandas.s_cumsum tvo else tvo) in *.
  assert (Hload :
    (match totals' with
     | Some t => s <- load_Series t ;; ret (Some s)
     | None => ret None
     end) w2 = (Ok tvo', w2)).
  { destruct totals' as [t'|], tvo' as [tv'|]; cbn [refers_to] in Ht'; try contradiction.
    - erewrite bind_ok by (apply load_Series_run; exact Ht'). reflexivity.
    - reflexivity. }
  erewrite bind_ok by exact Hload.
  unfold lineplot_outcome. fold dfv' tvo'. fold (drawn_categories kw dfv').
  set (cats := drawn_categories kw dfv').
  rewrite <- Hc, <- Hs.
  destruct (category_colors kw) as [d|].
  - unfold bind at 1. cbn [ret].
    unfold bind at 1, sns_set.
    destruct (bool_decide (seaborn_style kw ∈ Seaborn.styles)).
    + unfold bind at 1, lift.
      destruct (lineplot_figure get_xlim get_ylim dfv' tvo' cats d kw) as [fig|e].
      * eexists. split; [reflexivity|]. split; reflexivity.
      * eexists. split; [reflexivity|]. split; reflexivity.
    + eexists. split; [reflexivity|]. split; reflexivity.
  - unfold bind at 1. unfold bind at 1. unfold sns_color_palette, lift.
    destruct (palette_dict 0 (prop_cycle w2) cats ∅) as [d|e].
    + unfold bind at 1, sns_set.
      destruct (bool_decide (seaborn_style kw ∈ Seaborn.styles)).
      * unfold bind at 1, lift.
        destruct (lineplot_figure get_xlim get_ylim dfv' tvo' cats d kw) as [fig|e].
        -- eexists. split; [reflexivity|]. split; reflexivity.
        -- eexists. split; [reflexivity|]. split; reflexivity.
      * eexists. split; [reflexivity|]. split; reflexivity.
    + eexists. split; [reflexivity|]. split; reflexivity.
Qed.

End Eval.

(** A successful call, taken apart: the data drawn, the colors used, and
    the state left behind. *)
Lemma lineplot_ok_inv (get_xlim get_ylim : Axes -> Q * Q)
    (df : loc) (totals : option loc) (kw : lineplot_kw)
    (w w' : world) (dfv : DataFrame) (tvo : option Series) (fig : Figure) :
  heap w !! df = Some (PyDataFrame dfv) ->
  refers_to w totals tvo ->
  lineplot get_xlim get_ylim df totals kw w = (Ok fig, w') ->
  exists colors,
    (match category_colors kw with
     | Some d => colors = d
     | None =>
         palette_dict 0 (prop_cycle w)
           (drawn_categories kw dfv) ∅ = Ok colors
     end) /\
    lineplot_figure get_xlim get_ylim
      (if cumulative kw then Pandas.df_cumsum dfv else dfv)
      (if cumulative kw then option_map Pandas.s_cumsum tvo else tvo)
      (drawn_categories kw dfv) colors kw = Ok fig /\
    prop_cycle w' = Seaborn.deep /\
    st_written w' = st_written w ++ [StFigure fig].
Proof.
  intros Hdf Ht Hrun.
  destruct (lineplot_eval get_xlim get_ylim df totals kw w dfv tvo Hdf Ht)
    as (w1 & Heval & Hc & Hs).
  rewrite Hrun in Heval. injection Heval as Hr <-.
  unfold lineplot_outcome in *.
  assert (Hcats : drawn_categories kw (if cumulative kw then Pandas.df_cumsum dfv else dfv)
                  = drawn_categories kw dfv).
  { destruct (cumulative kw); [apply drawn_categories_cumsum|reflexivity]. }
  rewrite Hcats in *.
  destruct (category_colors kw) as [d|].
  - destruct (bool_decide _); cbn [fst snd] in *; [|discriminate].
    exists d. rewrite <- Hr in Hs. cbn [page_after] in Hs. auto.
  - destruct (palette_dict _ _ _ _) as [d|e]; cbn [fst snd] in *; [|discriminate].
    destruct (bool_decide _); cbn [fst snd] in *; [|discriminate].
    exists d. rewrite <- Hr in Hs. cbn [page_after] in Hs. auto.
Qed.

(** A call that raises leaves the page as it was. *)
Lemma lineplot_raise_page (get_xlim get_ylim : Axes -> Q * Q)
    (df : loc) (totals : option loc) (kw : lineplot_kw)
    (w w' : world) (dfv : DataFrame) (tvo : option Series) (e : exn) :
  heap w !! df = Some (PyDataFrame dfv) ->
  refers_to w totals tvo ->
  lineplot get_xlim get_ylim df totals kw w = (Raise e, w') ->
  st_written w' = st_written w.
Proof.
  intros Hdf Ht Hrun.
  destruct (lineplot_eval get_xlim get_ylim df totals kw w dfv tvo Hdf Ht)
    as (w1 & Heval & Hc & Hs).
  rewrite Hrun in Heval. injection Heval as Hr <-.
  rewrite <- Hr in Hs. exact Hs.
Qed.

(** What [write] does for a key of [data]. *)
Lemma write_eval (data : list (string * loc)) (k : string) (st_loc : st_container)
    (columns : option (list string)) (w : world) (l : loc) (dfv : DataFrame) :
  assoc k data = Some l ->
  heap w !! l = Some (PyDataFrame dfv) ->
  match columns with
  | None =>
      write data (Some k) st_loc columns w
      = (Ok tt, mkWorld (heap w) (prop_cycle w)
                  (st_written w ++ [StObject (PyDataFrame dfv)]))
  | Some cols =>
      match Pandas.select_columns (df_columns dfv) cols with
      | Ok _ =>
          exists w',
            write data (Some k) st_loc columns w = (Ok tt, w') /\
            st_written w' = st_written w ++ [StObject (PyDataFrame dfv)]
      | Raise e => write data (Some k) st_loc columns w = (Raise e, w)
      end
  end.
Proof.
  intros Hk Hl. unfold write. cbn [mbind option_bind]. rewrite Hk.
  destruct columns as [cols|].
  - unfold DataFrame_getitem_list, Pandas.getitem_list.
    destruct (Pandas.select_columns (df_columns dfv) cols) as [sel|e] eqn:Es.
    + destruct (alloc_run (PyDataFrame (mkDataFrame (df_index dfv) sel)) w)
        as (l1 & w1 & Ha & Hfresh & Hl1 & Hother & Hc & Hs).
      exists (mkWorld (heap w1) (prop_cycle w1)
                (st_written w1 ++ [StObject (PyDataFrame dfv)])).
      split; [|cbn [st_written]; rewrite Hs; reflexivity].
      erewrite bind_ok.
      2:{ erewrite bind_ok by (apply load_DataFrame_run; exact Hl).
          erewrite bind_ok by (unfold lift; rewrite Es; reflexivity).
          exact Ha. }
      assert (Hne : l <> l1) by congruence.
      unfold bind, load. rewrite Hother by exact Hne. rewrite Hl. reflexivity.
    + erewrite bind_raise; [reflexivity|].
      erewrite bind_ok by (apply load_DataFrame_run; exact Hl).
      erewrite bind_raise; [reflexivity|].
      unfold lift. rewrite Es. reflexivity.
  - unfold bind, ret, load. rewrite Hl. reflexivity.
Qed.

Section Outcome.

Variable get_xlim : Axes -> Q * Q.
Variable get_ylim : Axes -> Q * Q.

Lemma lineplot_cumulative_series
    (df : loc) (totals : option loc) (kw : lineplot_kw)
    (w w' : world) (dfv : DataFrame) (tvo : option Series) (fig : Figure) :
  cumulative kw = true ->
  heap w !! df = Some (PyDataFrame dfv) ->
  refers_to w totals tvo ->
  lineplot get_xlim get_ylim df totals kw w = (Ok fig, w') ->
  Forall (fun c => In c (Pandas.columns dfv)) (drawn_categories kw dfv) /\
  plotted_series fig
    = map (fun c => (c, Pandas.cumsum (column_values dfv c))) (drawn_categories kw dfv)
      ++ match tvo with
         | Some t => [("Total"%string, Pandas.cumsum (s_values t))]
         | None => []
         end /\
  plotted_lines fig
    = map (fun c => Pandas.cumsum (column_values dfv c)) (drawn_categories kw dfv)
      ++ match tvo with
         | Some t => [Pandas.cumsum (s_values t)]
         | None => []
         end.
Proof.
  intros Hcum Hdf Ht Hrun.
  destruct (lineplot_ok_inv _ _ _ _ _ _ _ _ _ _ Hdf Ht Hrun) as (colors & _ & Hfig & _).
  rewrite Hcum in Hfig.
  destruct (lineplot_figure_inv _ _ _ _ _ _ _ _ Hfig) as (Hall & _ & Hart & _).
  split.
  { eapply Forall_impl; [exact Hall|]. intros c Hc.
    apply (present_column dfv colors), present_cumsum, Hc. }
  split.
  - rewrite (series_of_artists _ _ _ _ _ _ Hall Hart).
    f_equal.
    + apply map_ext. intros c. rewrite column_values_cumsum. reflexivity.
    + destruct tvo; reflexivity.
  - rewrite (lines_of_artists _ _ _ _ _ _ Hall Hart).
    f_equal.
    + apply map_ext. intros c. rewrite column_values_cumsum. reflexivity.
    + destruct tvo; reflexivity.
Qed.

(** Two calls with the same arguments, on the same data and under the
    same color cycle, have the same outcome. *)
Lemma lineplot_same_cycle_same_outcome
    (df1 df2 : loc) (totals1 totals2 : option loc) (kw : lineplot_kw)
    (w1 w2 : world) (dfv : DataFrame) (tvo : option Series) :
  heap w1 !! df1 = Some (PyDataFrame dfv) ->
  heap w2 !! df2 = Some (PyDataFrame dfv) ->
  refers_to w1 totals1 tvo ->
  refers_to w2 totals2 tvo ->
  prop_cycle w1 = prop_cycle w2 ->
  fst (lineplot get_xlim get_ylim df1 totals1 kw w1)
  = fst (lineplot get_xlim get_ylim df2 totals2 kw w2).
Proof.
  intros Hd1 Hd2 Ht1 Ht2 Hc.
  destruct (lineplot_eval get_xlim get_ylim df1 totals1 kw w1 dfv tvo Hd1 Ht1)
    as (w1' & -> & _).
  destruct (lineplot_eval get_xlim get_ylim df2 totals2 kw w2 dfv tvo Hd2 Ht2)
    as (w2' & -> & _).
  cbn [fst]. rewrite Hc. reflexivity.
Qed.

(** With no colors given, category number [i] is drawn in color number
    [i] of the cycle that is current when the call starts. *)
Lemma lineplot_colors_in_cycle_order
    (df : loc) (totals : option loc) (kw : lineplot_kw)
    (w w' : world) (dfv : DataFrame) (tvo : option Series) (fig : Figure) :
  heap w !! df = Some (PyDataFrame dfv) ->
  refers_to w totals tvo ->
  category_colors kw = None ->
  NoDup (drawn_categories kw dfv) ->
  lineplot get_xlim get_ylim df totals kw w = (Ok fig, w') ->
  forall (i : nat) (c : string),
    drawn_categories kw dfv !! i = Some c ->
    exists col, prop_cycle w !! i = Some col /\ series_colors fig !! i = Some (c, col).
Proof.
  intros Hdf Ht Hnone Hnd Hrun i c Hi.
  destruct (lineplot_ok_inv _ _ _ _ _ _ _ _ _ _ Hdf Ht Hrun) as (colors & Hcol & Hfig & _).
  rewrite Hnone in Hcol.
  destruct (palette_dict_lookup _ _ _ _ _ Hcol Hnd) as [Hlook _].
  destruct (lineplot_figure_inv _ _ _ _ _ _ _ _ Hfig) as (Hall & _ & Hart & _).
  rewrite (colors_of_artists _ _ _ _ _ _ Hall Hart).
  rewrite List.Forall_forall in Hall.
  assert (Hin : In c (drawn_categories kw dfv)).
  { apply list_elem_of_In. eapply list_elem_of_lookup_2, Hi. }
  destruct (Hall c Hin) as (ys & col & _ & Hc & _).
  exists col. split; [rewrite <- Hc; symmetry; exact (Hlook i c Hi)|].
  apply lookup_app_l_Some. rewrite list_lookup_fmap, Hi. cbn. rewrite Hc. reflexivity.
Qed.

End Outcome.


End Run.

(** * Properties of [DataViewer.lineplot] *)

Module LineplotProps.
Import Frame PandasFacts Draw Run.

(** C4.  In cumulative mode the series drawn for every category, and the
    totals when present, are the running sums of the data along the
    index; for columns A = 1, 2, 3 and B = 0, 1, 1 over 2020..2022 the
    series drawn are A = 1, 3, 6 and B = 0, 1, 2. *)
Theorem lineplot_cumulative_draws_running_sums :
  (forall (get_xlim get_ylim : Axes -> Q * Q)
          (df : loc) (totals : option loc) (kw : lineplot_kw)
          (w w' : world) (dfv : DataFrame) (tvo : option Series) (fig : Figure),
      cumulative kw = true ->
      heap w !! df = Some (PyDataFrame dfv) ->
      refers_to w totals tvo ->
      lineplot get_xlim get_ylim df totals kw w = (Ok fig, w') ->
      Forall (fun c => In c (Pandas.columns dfv)) (drawn_categories kw dfv) /\
      plotted_series fig
        = map (fun c => (c, Pandas.cumsum (column_values dfv c))) (drawn_categories kw dfv)
          ++ match tvo with
             | Some t => [("Total"%string, Pandas.cumsum (s_values t))]
             | None => []
             end /\
      plotted_lines fig
        = map (fun c => Pandas.cumsum (column_values dfv c)) (drawn_categories kw dfv)
          ++ match tvo with
             | Some t => [Pandas.cumsum (s_values t)]
             | None => []
             end) /\
  (forall l : list Q, Forall2 Qeq (Pandas.cumsum l) (running_sums l)) /\
  (exists fig,
      fst (lineplot margins_xlim margins_ylim df_loc None cumulative_kw fresh_process)
        = Ok fig /\
      plotted_series fig
        = [("A"%string, [1 # 1; 3 # 1; 6 # 1]); ("B"%string, [0 # 1; 1 # 1; 2 # 1])]).
Proof.
  split; [|split].
  - intros. eapply lineplot_cumulative_series; eassumption.
  - apply cumsum_running_sums.
  - eexists. split; [vm_compute; reflexivity|]. vm_compute. reflexivity.
Qed.

Lemma lineplot_cumulative_draws_running_sums_witness :
  exists fig,
    fst (lineplot margins_xlim margins_ylim df_loc (Some totals_loc)
           cumulative_kw fresh_process) = Ok fig /\
    plotted_lines fig
      = map (fun c => Pandas.cumsum (column_values ex_df c)) ["A"; "B"]%string
        ++ [Pandas.cumsum (s_values ex_totals)].
Proof.
  destruct (lineplot margins_xlim margins_ylim df_loc (Some totals_loc)
              cumulative_kw fresh_process) as [r w'] eqn:E.
  assert (Hr : exists fig, r = Ok fig).
  { apply (f_equal fst) in E. cbn [fst] in E. rewrite <- E. vm_compute. eexists. reflexivity. }
  destruct Hr as [fig ->].
  exists fig. split; [reflexivity|].
  exact (proj2 (proj2 (proj1 lineplot_cumulative_draws_running_sums
                         margins_xlim margins_ylim df_loc (Some totals_loc)
                         cumulative_kw fresh_process w' ex_df (Some ex_totals) fig
                         eq_refl eq_refl eq_refl E))).
Defined.

(** C5.  [lineplot] raises a KeyError, IndexError or ValueError, returns no
    figure and writes nothing to the page when [categories] names a label
    that is not a column of the table, and when the totals do not have
    the length of the index. *)
Theorem lineplot_malformed_raises (get_xlim get_ylim : Axes -> Q * Q)
    (df : loc) (totals : option loc) (kw : lineplot_kw)
    (w : world) (dfv : DataFrame) (tvo : option Series) :
  heap w !! df = Some (PyDataFrame dfv) ->
  refers_to w totals tvo ->
  (exists c, In c (drawn_categories kw dfv) /\ ~ In c (Pandas.columns dfv)) \/
  (exists t, tvo = Some t /\ length (s_values t) <> length (df_index dfv)) ->
  exists e w',
    lineplot get_xlim get_ylim df totals kw w = (Raise e, w') /\
    ValidationError e /\
    st_written w' = st_written w.
Proof.
  intros Hdf Ht Hbad.
  destruct (lineplot_eval get_xlim get_ylim df totals kw w dfv tvo Hdf Ht)
    as (w' & Heval & _ & Hs).
  assert (Hout : exists e,
             fst (lineplot_outcome get_xlim get_ylim (prop_cycle w) dfv tvo kw) = Raise e /\
             ValidationError e).
  { unfold lineplot_outcome.
    set (df' := if cumulative kw then Pandas.df_cumsum dfv else dfv).
    set (tvo' := if cumulative kw then option_map Pandas.s_cumsum tvo else tvo).
    assert (Hbad' :
      (exists c, In c (drawn_categories kw df') /\ ~ In c (Pandas.columns df')) \/
      (exists t, tvo' = Some t /\ length (s_values t) <> length (df_index df'))).
    { unfold df', tvo'. destruct (cumulative kw); [|exact Hbad].
      rewrite drawn_categories_cumsum, columns_cumsum.
      destruct Hbad as [Hc|(t & -> & Hne)]; [left; exact Hc|right].
      exists (Pandas.s_cumsum t). split; [reflexivity|].
      cbn [Pandas.s_cumsum s_values Pandas.df_cumsum df_index].
      rewrite length_cumsum. exact Hne. }
    assert (Hfig : forall colors, exists e,
               lineplot_figure get_xlim get_ylim df' tvo' (drawn_categories kw df') colors kw
                 = Raise e /\ ValidationError e).
    { intros colors. apply malformed_figure_raises, Hbad'. }
    destruct (category_colors kw) as [d|].
    - destruct (bool_decide _); cbn [fst].
      + apply Hfig.
      + exists ValueError. split; [reflexivity|exact I].
    - destruct (palette_dict 0 (prop_cycle w) (drawn_categories kw df') ∅) as [d|e] eqn:Ep.
      + destruct (bool_decide _); cbn [fst].
        * apply Hfig.
        * exists ValueError. split; [reflexivity|exact I].
      + cbn [fst]. exists e. split; [reflexivity|].
        rewrite (palette_dict_raises _ _ _ _ _ Ep). exact I. }
  destruct Hout as (e & He & Hv).
  rewrite He in Heval, Hs.
  exists e, w'. split; [exact Heval|]. split; [exact Hv|exact Hs].
Qed.

Lemma lineplot_malformed_raises_witness :
  (exists e w',
      lineplot margins_xlim margins_ylim df_loc None missing_kw fresh_process
        = (Raise e, w') /\ ValidationError e /\
      st_written w' = st_written fresh_process) /\
  (exists e w',
      lineplot margins_xlim margins_ylim df_loc (Some short_loc) default_kw fresh_process
        = (Raise e, w') /\ ValidationError e /\
      st_written w' = st_written fresh_process).
Proof.
  split.
  - apply (lineplot_malformed_raises margins_xlim margins_ylim df_loc None missing_kw
             fresh_process ex_df None eq_refl I).
    left. exists "C"%string. split.
    + right. left. reflexivity.
    + intros [H|[H|[]]]; discriminate.
  - apply (lineplot_malformed_raises margins_xlim margins_ylim df_loc (Some short_loc)
             default_kw fresh_process ex_df (Some short_totals) eq_refl eq_refl).
    right. exists short_totals. split; [reflexivity|]. cbn. lia.
Defined.

(** C6, on the code.  In a process that has just started, the first call
    draws the categories in the first colors of matplotlib's default
    cycle, and a second call with the same arguments draws them in the
    first colors of seaborn's palette, which the first call installed
    after it had read the cycle.  The data drawn, the legend and the
    computed y limits are the same in both figures. *)
Theorem lineplot_first_call_other_palette :
  exists fig1 w1 fig2 w2,
    lineplot margins_xlim margins_ylim df_loc (Some totals_loc) default_kw fresh_process
      = (Ok fig1, w1) /\
    lineplot margins_xlim margins_ylim df_loc (Some totals_loc) default_kw w1
      = (Ok fig2, w2) /\
    series_colors fig1
      = [("A", "#1f77b4"); ("B", "#ff7f0e"); ("Total", "k")]%string /\
    series_colors fig2
      = [("A", "#4C72B0"); ("B", "#DD8452"); ("Total", "k")]%string /\
    plotted_series fig1 = plotted_series fig2 /\
    fig_legend fig1 = fig_legend fig2 /\
    y_bounds margins_ylim default_kw fig1 = y_bounds margins_ylim default_kw fig2.
Proof.
  eexists _, _, _, _.
  split; [vm_compute; reflexivity|].
  split; [vm_compute; reflexivity|].
  split; [vm_compute; reflexivity|].
  split; [vm_compute; reflexivity|].
  split; [vm_compute; reflexivity|].
  split; vm_compute; reflexivity.
Qed.

(** C7.  A call of [lineplot], cumulative or not and whatever its
    outcome, leaves every object of the store as it was: the caller's
    table and totals hold the same data after the call. *)
Theorem lineplot_inputs_untouched (get_xlim get_ylim : Axes -> Q * Q)
    (df : loc) (totals : option loc) (kw : lineplot_kw)
    (w w' : world) (dfv : DataFrame) (tvo : option Series) (r : result Figure) :
  heap w !! df = Some (PyDataFrame dfv) ->
  refers_to w totals tvo ->
  lineplot get_xlim get_ylim df totals kw w = (r, w') ->
  heap w' !! df = Some (PyDataFrame dfv) /\
  refers_to w' totals tvo /\
  heap_preserved w w'.
Proof.
  intros Hdf Ht Hrun.
  pose proof (preserves_lineplot get_xlim get_ylim df totals kw w r w' Hrun) as Hp.
  split; [apply Hp, Hdf|]. split; [|exact Hp].
  destruct totals as [t|], tvo as [tv|]; cbn [refers_to] in *; try contradiction; auto.
Qed.

Lemma lineplot_inputs_untouched_witness :
  heap (snd (lineplot margins_xlim margins_ylim df_loc (Some totals_loc)
               cumulative_kw fresh_process)) !! df_loc
  = Some (PyDataFrame ex_df).
Proof.
  destruct (lineplot margins_xlim margins_ylim df_loc (Some totals_loc)
              cumulative_kw fresh_process) as [r w'] eqn:E.
  exact (proj1 (lineplot_inputs_untouched margins_xlim margins_ylim df_loc
                  (Some totals_loc) cumulative_kw fresh_process w' ex_df
                  (Some ex_totals) r eq_refl eq_refl E)).
Defined.

(** C8.  The legend of a figure has [n / 4 + 1] columns, [n] being the
    number of categories drawn; its entries are the category labels and
    the optional "Total", and every column holds at most four of
    them. *)
Theorem lineplot_legend_columns (get_xlim get_ylim : Axes -> Q * Q)
    (df : loc) (totals : option loc) (kw : lineplot_kw)
    (w w' : world) (dfv : DataFrame) (tvo : option Series) (fig : Figure) :
  heap w !! df = Some (PyDataFrame dfv) ->
  refers_to w totals tvo ->
  include_legend kw = true ->
  lineplot get_xlim get_ylim df totals kw w = (Ok fig, w') ->
  exists lg,
    fig_legend fig = Some lg /\
    lg_ncol lg = (length (drawn_categories kw dfv) / 4 + 1)%nat /\
    lg_labels lg
      = filter (fun l => Matplotlib.legend_visible l = true)
          (drawn_categories kw dfv
           ++ match tvo with Some _ => ["Total"%string] | None => [] end) /\
    concat (Matplotlib.legend_columns lg) = lg_labels lg /\
    Forall (fun col => (length col <= 4)%nat) (Matplotlib.legend_columns lg).
Proof.
  intros Hdf Ht Hleg Hrun.
  destruct (lineplot_ok_inv _ _ _ _ _ _ _ _ _ _ Hdf Ht Hrun) as (colors & _ & Hfig & _).
  destruct (lineplot_figure_inv _ _ _ _ _ _ _ _ Hfig)
    as (Hall & _ & Hart & _ & _ & _ & Hlg & _).
  rewrite Hleg in Hlg.
  set (cats := drawn_categories kw dfv) in *.
  assert (Hlabels : Matplotlib.legend_labels (fig_axes fig)
            = filter (fun l => Matplotlib.legend_visible l = true)
                (cats ++ match tvo with Some _ => ["Total"%string] | None => [] end)).
  { unfold Matplotlib.legend_labels.
    rewrite (labels_of_artists _ _ _ _ _ _ Hall Hart).
    destruct (cumulative kw), tvo; reflexivity. }
  match type of Hlg with _ = Some ?l => set (lg := l) in * end.
  exists lg. split; [exact Hlg|].
  split; [reflexivity|]. split; [exact Hlabels|].
  apply (legend_columns_spec lg (length cats)); [reflexivity|].
  change (lg_labels lg) with (Matplotlib.legend_labels (fig_axes fig)).
  rewrite Hlabels.
  etransitivity; [apply length_filter|].
  rewrite length_app. destruct tvo; cbn [length]; lia.
Qed.

Lemma lineplot_legend_columns_witness :
  exists fig lg,
    fst (lineplot margins_xlim margins_ylim df_loc (Some totals_loc)
           default_kw fresh_process) = Ok fig /\
    fig_legend fig = Some lg /\
    lg_ncol lg = 1%nat /\
    Forall (fun col => (length col <= 4)%nat) (Matplotlib.legend_columns lg).
Proof.
  destruct (lineplot margins_xlim margins_ylim df_loc (Some totals_loc)
              default_kw fresh_process) as [r w'] eqn:E.
  assert (Hr : exists fig, r = Ok fig).
  { apply (f_equal fst) in E. cbn [fst] in E. rewrite <- E. vm_compute. eexists. reflexivity. }
  destruct Hr as [fig ->].
  destruct (lineplot_legend_columns margins_xlim margins_ylim df_loc (Some totals_loc)
              default_kw fresh_process w' ex_df (Some ex_totals) fig
              eq_refl eq_refl eq_refl E) as (lg & Hlg & Hn & _ & _ & Hcols).
  exists fig, lg. split; [reflexivity|]. split; [exact Hlg|]. split; [exact Hn|exact Hcols].
Defined.



End LineplotProps.

(** * Properties of [DataViewer.write] *)

Module WriteProps.
Import PandasFacts Run.

(** C10, as stated, fails for a list that names a label which is not a
    column: the selection raises and nothing is shown, while a call that
    differs only in [columns] shows the dataframe. *)
Lemma write_missing_column_shows_nothing :
  write ex_data (Some "counts"%string) ex_container (Some ["Z"%string]) fresh_process
    = (Raise (KeyError "Z"), fresh_process) /\
  st_written (snd (write ex_data (Some "counts"%string) ex_container
                     (Some ["A"%string]) fresh_process))
    = [StObject (PyDataFrame ex_df)].
Proof. split; vm_compute; reflexivity. Qed.

(** C10 (amended).  For a key of [data] and a list of labels that are all
    columns of the dataframe, [write] shows the whole dataframe: the page
    gets the same element as without [columns], whatever the list.  For a
    list with a label that is not a column, the call raises KeyError and
    changes nothing. *)
Theorem write_shows_full_dataframe (data : list (string * loc)) (k : string)
    (st_loc : st_container) (cols : list string)
    (w : world) (l : loc) (dfv : DataFrame) :
  assoc k data = Some l ->
  heap w !! l = Some (PyDataFrame dfv) ->
  (Forall (fun c => In c (Pandas.columns dfv)) cols ->
   exists w',
     write data (Some k) st_loc (Some cols) w = (Ok tt, w') /\
     st_written w' = st_written w ++ [StObject (PyDataFrame dfv)] /\
     st_written w' = st_written (snd (write data (Some k) st_loc None w))) /\
  (~ Forall (fun c => In c (Pandas.columns dfv)) cols ->
   exists c,
     In c cols /\ ~ In c (Pandas.columns dfv) /\
     write data (Some k) st_loc (Some cols) w = (Raise (KeyError c), w)).
Proof.
  intros Hk Hl.
  pose proof (write_eval data k st_loc (Some cols) w l dfv Hk Hl) as Hsome.
  pose proof (write_eval data k st_loc None w l dfv Hk Hl) as Hnone.
  cbv beta iota in Hsome, Hnone.
  split.
  - intros Hcols.
    destruct (select_columns_ok (df_columns dfv) cols Hcols) as [sel Hsel].
    rewrite Hsel in Hsome. destruct Hsome as (w' & Hrun & Hpage).
    exists w'. split; [exact Hrun|]. split; [exact Hpage|].
    rewrite Hnone. cbn [snd st_written]. exact Hpage.
  - intros Hcols.
    destruct (select_columns_missing (df_columns dfv) cols Hcols) as (c & Hsel & Hin & Hnot).
    rewrite Hsel in Hsome. exists c. auto.
Qed.

Lemma write_shows_full_dataframe_witness :
  (exists w',
      write ex_data (Some "counts"%string) ex_container (Some ["B"; "A"]%string)
        fresh_process = (Ok tt, w') /\
      st_written w' = [StObject (PyDataFrame ex_df)]) /\
  (exists c,
      write ex_data (Some "counts"%string) ex_container (Some ["A"; "Z"]%string)
        fresh_process = (Raise (KeyError c), fresh_process)).
Proof.
  split.
  - destruct (proj1 (write_shows_full_dataframe ex_data "counts" ex_container
                       ["B"; "A"]%string fresh_process df_loc ex_df eq_refl eq_refl))
      as (w' & Hrun & Hpage & _).
    + constructor; [right; left; reflexivity|].
      constructor; [left; reflexivity|constructor].
    + exists w'. split; [exact Hrun|exact Hpage].
  - destruct (proj2 (write_shows_full_dataframe ex_data "counts" ex_container
                       ["A"; "Z"]%string fresh_process df_loc ex_df eq_refl eq_refl))
      as (c & _ & _ & Hrun).
    + intros Hall. inversion Hall as [|? ? _ Hrest]; subst.
      inversion Hrest as [|? ? Hz _]; subst.
      destruct Hz as [Hz|[Hz|[]]]; discriminate.
    + exists c. exact Hrun.
Defined.

End WriteProps.

(** * More on the tick range *)

Module TickRangeMore.
Import Numpy NumpyFacts TickRange PandasFacts.













Lemma cumsum_last (l : list Q) (y : Q) :
  last (Pandas.cumsum l) = Some y -> y == Qsum l.
Proof.
  destruct l as [|x l]; [discriminate|].
  rewrite last_lookup, length_cumsum. intros H.
  apply cumsum_lookup in H.
  cbn [length Nat.pred] in H.
  change (S (length l)) with (length (x :: l)) in H.
  rewrite firstn_all in H. exact H.
Qed.











End TickRangeMore.

(** * Further properties of [DataViewer.lineplot] *)

Module LineplotMore.
Import Numpy NumpyFacts Frame PandasFacts Draw Run TickRangeMore.

(** ** The default colors *)

Lemma palette_dict_short (cycle : list color) (cats : list string) :
  forall (i : nat) (acc : gmap string color),
    (i <= length cycle)%nat ->
    (length cycle < i + length cats)%nat ->
    palette_dict i cycle cats acc = Raise IndexError.
Proof.
  induction cats as [|c cats IH]; intros i acc Hi Hlen; cbn [palette_dict length] in *.
  - lia.
  - destruct (cycle !! i) as [col|] eqn:E; [|reflexivity].
    apply lookup_lt_Some in E. apply IH; lia.
Qed.

Lemma palette_dict_long (cycle : list color) (cats : list string) :
  forall (i : nat) (acc : gmap string color),
    (i + length cats <= length cycle)%nat ->
    exists colors, palette_dict i cycle cats acc = Ok colors.
Proof.
  induction cats as [|c cats IH]; intros i acc Hlen; cbn [palette_dict length] in *.
  - eexists; reflexivity.
  - destruct (lookup_lt_is_Some_2 cycle i) as [col E]; [lia|].
    rewrite E. apply IH. lia.
Qed.

Lemma last_index_spec (c : string) (l : list string) :
  match last_index c l with
  | Some j => l !! j = Some c /\ forall j', (j < j')%nat -> l !! j' <> Some c
  | None => ~ In c l
  end.
Proof.
  induction l as [|x l IH]; cbn [last_index]; [intros []|].
  destruct (last_index c l) as [j|].
  - destruct IH as [Hj Hlast]. split; [exact Hj|].
    intros [|j'] Hlt; [lia|]. cbn. apply Hlast. lia.
  - destruct (String.eqb_spec x c) as [->|Hne].
    + split; [reflexivity|]. intros [|j'] Hlt Hj'; [lia|]. cbn in Hj'.
      apply IH. apply list_elem_of_In. eapply list_elem_of_lookup_2, Hj'.
    + intros [Heq|Hin]; [congruence|]. apply IH, Hin.
Qed.

Lemma last_index_after (c : string) (l : list string) (i : nat) :
  l !! i = Some c -> exists j, last_index c l = Some j /\ (i <= j)%nat.
Proof.
  intros Hi. pose proof (last_index_spec c l) as Hs.
  destruct (last_index c l) as [j|].
  - exists j. split; [reflexivity|]. destruct Hs as [_ Hlast].
    destruct (Nat.le_gt_cases i j) as [Hle|Hgt]; [exact Hle|].
    exfalso. exact (Hlast i Hgt Hi).
  - exfalso. apply Hs. apply list_elem_of_In. eapply list_elem_of_lookup_2, Hi.
Qed.

Lemma palette_dict_last (cycle : list color) (cats : list string) :
  forall (i : nat) (acc colors : gmap string color),
    palette_dict i cycle cats acc = Ok colors ->
    forall c,
      colors !! c = match last_index c cats with
                    | Some j => cycle !! (i + j)%nat
                    | None => acc !! c
                    end.
Proof.
  induction cats as [|key cats IH]; intros i acc colors H c; cbn [palette_dict last_index] in *.
  - injection H as <-. reflexivity.
  - destruct (cycle !! i) as [col|] eqn:Ei; [|discriminate].
    rewrite (IH _ _ _ H c).
    destruct (last_index c cats) as [j|].
    + f_equal. lia.
    + destruct (String.eqb_spec key c) as [->|Hne].
      * rewrite lookup_insert_eq, Nat.add_0_r, Ei. reflexivity.
      * apply lookup_insert_ne. exact Hne.
Qed.

(** The categories drawn are the same in both modes. *)
Lemma drawn_categories_table (kw : lineplot_kw) (df : DataFrame) :
  drawn_categories kw (drawn_table kw df) = drawn_categories kw df.
Proof.
  unfold drawn_table. destruct (cumulative kw); [apply drawn_categories_cumsum|reflexivity].
Qed.

Lemma df_index_table (kw : lineplot_kw) (df : DataFrame) :
  df_index (drawn_table kw df) = df_index df.
Proof. unfold drawn_table. destruct (cumulative kw); reflexivity. Qed.

(** [lineplot_outcome], with the table and the categories named. *)
Lemma lineplot_outcome_eq (get_xlim get_ylim : Axes -> Q * Q)
    (cycle : list color) (df : DataFrame) (tvo : option Series) (kw : lineplot_kw) :
  lineplot_outcome get_xlim get_ylim cycle df tvo kw =
  match (match category_colors kw with
         | Some d => Ok d
         | None => palette_dict 0 cycle (drawn_categories kw df) ∅
         end) with
  | Raise e => (Raise e, cycle)
  | Ok colors =>
      if bool_decide (seaborn_style kw ∈ Seaborn.styles) then
        (lineplot_figure get_xlim get_ylim (drawn_table kw df)
           (if cumulative kw then option_map Pandas.s_cumsum tvo else tvo)
           (drawn_categories kw df) colors kw, Seaborn.deep)
      else (Raise ValueError, cycle)
  end.
Proof.
  unfold lineplot_outcome. fold (drawn_table kw df).
  rewrite drawn_categories_table. reflexivity.
Qed.

(** X6.  Without [category_colors], a call that has more categories to
    draw than the current color cycle has colors raises IndexError; it
    shows nothing and leaves the color cycle as it was.  (With the ten
    colors of matplotlib's or seaborn's default cycle: more than ten
    categories.) *)
Theorem lineplot_palette_exhausted (get_xlim get_ylim : Axes -> Q * Q)
    (df : loc) (totals : option loc) (kw : lineplot_kw)
    (w : world) (dfv : DataFrame) (tvo : option Series) :
  heap w !! df = Some (PyDataFrame dfv) ->
  refers_to w totals tvo ->
  category_colors kw = None ->
  (length (prop_cycle w) < length (drawn_categories kw dfv))%nat ->
  exists w',
    lineplot get_xlim get_ylim df totals kw w = (Raise IndexError, w') /\
    prop_cycle w' = prop_cycle w /\
    st_written w' = st_written w.
Proof.
  intros Hdf Ht Hnone Hlen.
  destruct (lineplot_eval get_xlim get_ylim df totals kw w dfv tvo Hdf Ht)
    as (w' & Heval & Hc & Hs).
  rewrite lineplot_outcome_eq, Hnone in Heval, Hc, Hs.
  rewrite palette_dict_short in Heval, Hc, Hs by (cbn; lia).
  exists w'. auto.
Qed.

Lemma lineplot_palette_exhausted_witness :
  exists w',
    lineplot margins_xlim margins_ylim df_loc None default_kw narrow_process
      = (Raise IndexError, w') /\
    prop_cycle w' = prop_cycle narrow_process /\
    st_written w' = st_written narrow_process.
Proof.
  apply (lineplot_palette_exhausted margins_xlim margins_ylim df_loc None default_kw
           narrow_process ex_df None).
  - reflexivity.
  - exact I.
  - reflexivity.
  - vm_compute. lia.
Defined.

(** X7.  Without [category_colors], a category is drawn in the color of
    the cycle at the position of its last occurrence in the list of
    categories: when a category is listed more than once, every one of
    its series has the color of the last listing. *)
Theorem lineplot_color_of_last_occurrence (get_xlim get_ylim : Axes -> Q * Q)
    (df : loc) (totals : option loc) (kw : lineplot_kw)
    (w w' : world) (dfv : DataFrame) (tvo : option Series) (fig : Figure) :
  heap w !! df = Some (PyDataFrame dfv) ->
  refers_to w totals tvo ->
  category_colors kw = None ->
  lineplot get_xlim get_ylim df totals kw w = (Ok fig, w') ->
  forall (i : nat) (c : string),
    drawn_categories kw dfv !! i = Some c ->
    exists (j : nat) (col : color),
      last_index c (drawn_categories kw dfv) = Some j /\ (i <= j)%nat /\
      drawn_categories kw dfv !! j = Some c /\
      prop_cycle w !! j = Some col /\
      series_colors fig !! i = Some (c, col).
Proof.
  intros Hdf Ht Hnone Hrun i c Hi.
  destruct (lineplot_ok_inv _ _ _ _ _ _ _ _ _ _ Hdf Ht Hrun) as (colors & Hcol & Hfig & _).
  rewrite Hnone in Hcol.
  destruct (last_index_after c _ i Hi) as (j & Hj & Hij).
  pose proof (palette_dict_last _ _ _ _ _ Hcol c) as Hlook. rewrite Hj in Hlook.
  pose proof (last_index_spec c (drawn_categories kw dfv)) as Hspec. rewrite Hj in Hspec.
  destruct (lineplot_figure_inv _ _ _ _ _ _ _ _ Hfig) as (Hall & _ & Hart & _).
  rewrite (colors_of_artists _ _ _ _ _ _ Hall Hart).
  rewrite List.Forall_forall in Hall.
  assert (Hin : In c (drawn_categories kw dfv)).
  { apply list_elem_of_In. eapply list_elem_of_lookup_2, Hi. }
  destruct (Hall c Hin) as (ys & col & _ & Hc & _).
  exists j, col. split; [exact Hj|]. split; [exact Hij|].
  split; [apply Hspec|].
  split; [rewrite <- Hc; symmetry; exact Hlook|].
  apply lookup_app_l_Some. rewrite list_lookup_fmap, Hi. cbn. rewrite Hc. reflexivity.
Qed.

Lemma lineplot_color_of_last_occurrence_witness :
  exists fig w',
    lineplot margins_xlim margins_ylim df_loc None repeated_kw fresh_process = (Ok fig, w') /\
    exists (j : nat) (col : color),
      last_index "A" (drawn_categories repeated_kw ex_df) = Some j /\ (0 <= j)%nat /\
      drawn_categories repeated_kw ex_df !! j = Some "A"%string /\
      prop_cycle fresh_process !! j = Some col /\
      series_colors fig !! 0%nat = Some ("A"%string, col).
Proof.
  eexists _, _. split; [vm_compute; reflexivity|].
  eapply (lineplot_color_of_last_occurrence margins_xlim margins_ylim df_loc None
            repeated_kw fresh_process _ ex_df None).
  - reflexivity.
  - exact I.
  - reflexivity.
  - vm_compute. reflexivity.
  - reflexivity.
Defined.

(** ** Colors given by the caller *)

(** X8.  With [category_colors] given, the outcome of a call does not
    depend on the color cycle of the process: two calls on the same data
    return the same figure or raise the same exception whatever the
    cycles are, and in a returned figure every category has the color
    that [category_colors] gives it. *)
Theorem lineplot_given_colors_ignore_cycle (get_xlim get_ylim : Axes -> Q * Q)
    (df1 df2 : loc) (totals1 totals2 : option loc) (kw : lineplot_kw)
    (w1 w2 : world) (dfv : DataFrame) (tvo : option Series) (d : gmap string color) :
  heap w1 !! df1 = Some (PyDataFrame dfv) ->
  heap w2 !! df2 = Some (PyDataFrame dfv) ->
  refers_to w1 totals1 tvo ->
  refers_to w2 totals2 tvo ->
  category_colors kw = Some d ->
  fst (lineplot get_xlim get_ylim df1 totals1 kw w1)
    = fst (lineplot get_xlim get_ylim df2 totals2 kw w2) /\
  forall fig, fst (lineplot get_xlim get_ylim df1 totals1 kw w1) = Ok fig ->
    forall (i : nat) (c : string),
      drawn_categories kw dfv !! i = Some c ->
      exists col, d !! c = Some col /\ series_colors fig !! i = Some (c, col).
Proof.
  intros Hd1 Hd2 Ht1 Ht2 Hsome.
  split.
  - destruct (lineplot_eval get_xlim get_ylim df1 totals1 kw w1 dfv tvo Hd1 Ht1)
      as (w1' & -> & _).
    destruct (lineplot_eval get_xlim get_ylim df2 totals2 kw w2 dfv tvo Hd2 Ht2)
      as (w2' & -> & _).
    rewrite !lineplot_outcome_eq, Hsome. destruct (bool_decide _); reflexivity.
  - intros fig Hfig i c Hi.
    destruct (lineplot get_xlim get_ylim df1 totals1 kw w1) as [r w1'] eqn:Hrun.
    cbn [fst] in Hfig. subst r.
    destruct (lineplot_ok_inv _ _ _ _ _ _ _ _ _ _ Hd1 Ht1 Hrun) as (colors & Hcol & Hf & _).
    rewrite Hsome in Hcol. subst colors.
    destruct (lineplot_figure_inv _ _ _ _ _ _ _ _ Hf) as (Hall & _ & Hart & _).
    rewrite (colors_of_artists _ _ _ _ _ _ Hall Hart).
    rewrite List.Forall_forall in Hall.
    assert (Hin : In c (drawn_categories kw dfv)).
    { apply list_elem_of_In. eapply list_elem_of_lookup_2, Hi. }
    destruct (Hall c Hin) as (ys & col & _ & Hc & _).
    exists col. split; [exact Hc|].
    apply lookup_app_l_Some. rewrite list_lookup_fmap, Hi. cbn. rewrite Hc. reflexivity.
Qed.

Lemma lineplot_given_colors_ignore_cycle_witness :
  fst (lineplot margins_xlim margins_ylim df_loc (Some totals_loc) colored_kw fresh_process)
    = fst (lineplot margins_xlim margins_ylim df_loc (Some totals_loc) colored_kw
             seaborn_process) /\
  forall fig,
    fst (lineplot margins_xlim margins_ylim df_loc (Some totals_loc) colored_kw fresh_process)
      = Ok fig ->
    forall (i : nat) (c : string),
      drawn_categories colored_kw ex_df !! i = Some c ->
      exists col, ex_colors !! c = Some col /\ series_colors fig !! i = Some (c, col).
Proof.
  apply (lineplot_given_colors_ignore_cycle margins_xlim margins_ylim df_loc df_loc
           (Some totals_loc) (Some totals_loc) colored_kw fresh_process seaborn_process
           ex_df (Some ex_totals) ex_colors); reflexivity.
Defined.

(** ** The state a call leaves behind *)

(** The color cycle after a call is the one before it or seaborn's. *)
Lemma outcome_cycle (get_xlim get_ylim : Axes -> Q * Q)
    (cycle : list color) (df : DataFrame) (tvo : option Series) (kw : lineplot_kw) :
  snd (lineplot_outcome get_xlim get_ylim cycle df tvo kw) = cycle \/
  snd (lineplot_outcome get_xlim get_ylim cycle df tvo kw) = Seaborn.deep.
Proof.
  rewrite lineplot_outcome_eq.
  destruct (match category_colors kw with Some d => _ | None => _ end); [|left; reflexivity].
  destruct (bool_decide _); [right|left]; reflexivity.
Qed.

(** Under seaborn's palette a call leaves seaborn's palette. *)
Lemma outcome_cycle_deep (get_xlim get_ylim : Axes -> Q * Q)
    (df : DataFrame) (tvo : option Series) (kw : lineplot_kw) :
  snd (lineplot_outcome get_xlim get_ylim Seaborn.deep df tvo kw) = Seaborn.deep.
Proof. destruct (outcome_cycle get_xlim get_ylim Seaborn.deep df tvo kw); assumption. Qed.

(** A call that leaves the cycle it found would do the same again. *)
Lemma outcome_same_cycle_again (get_xlim get_ylim : Axes -> Q * Q)
    (cycle : list color) (df : DataFrame) (tvo : option Series) (kw : lineplot_kw) :
  lineplot_outcome get_xlim get_ylim
    (snd (lineplot_outcome get_xlim get_ylim cycle df tvo kw)) df tvo kw
  = lineplot_outcome get_xlim get_ylim
      (snd (lineplot_outcome get_xlim get_ylim
              (snd (lineplot_outcome get_xlim get_ylim cycle df tvo kw)) df tvo kw))
      df tvo kw.
Proof.
  destruct (outcome_cycle get_xlim get_ylim cycle df tvo kw) as [E|E]; rewrite E.
  - rewrite E. reflexivity.
  - rewrite outcome_cycle_deep. reflexivity.
Qed.

Lemma refers_to_preserved (w w' : world) (totals : option loc) (tvo : option Series) :
  heap_preserved w w' -> refers_to w totals tvo -> refers_to w' totals tvo.
Proof.
  intros Hp. destruct totals as [t|], tvo as [tv|]; cbn [refers_to]; auto.
Qed.

(** X9.  From the second call on the outcome is settled: of three calls
    in a row with the same arguments, the second and the third return
    the same figure or raise the same exception, whatever the color
    cycle was before the first one. *)
Theorem lineplot_settled_after_first_call (get_xlim get_ylim : Axes -> Q * Q)
    (df : loc) (totals : option loc) (kw : lineplot_kw)
    (w w1 w2 w3 : world) (dfv : DataFrame) (tvo : option Series)
    (r1 r2 r3 : result Figure) :
  heap w !! df = Some (PyDataFrame dfv) ->
  refers_to w totals tvo ->
  lineplot get_xlim get_ylim df totals kw w = (r1, w1) ->
  lineplot get_xlim get_ylim df totals kw w1 = (r2, w2) ->
  lineplot get_xlim get_ylim df totals kw w2 = (r3, w3) ->
  r2 = r3.
Proof.
  intros Hdf Ht H1 H2 H3.
  pose proof (preserves_lineplot _ _ _ _ _ _ _ _ H1) as Hp1.
  pose proof (preserves_lineplot _ _ _ _ _ _ _ _ H2) as Hp2.
  assert (Hdf1 : heap w1 !! df = Some (PyDataFrame dfv)) by (apply Hp1, Hdf).
  assert (Ht1 : refers_to w1 totals tvo) by (eapply refers_to_preserved; eassumption).
  assert (Hdf2 : heap w2 !! df = Some (PyDataFrame dfv)) by (apply Hp2, Hdf1).
  assert (Ht2 : refers_to w2 totals tvo) by (eapply refers_to_preserved; eassumption).
  destruct (lineplot_eval get_xlim get_ylim df totals kw w dfv tvo Hdf Ht)
    as (v1 & E1 & Hc1 & _).
  destruct (lineplot_eval get_xlim get_ylim df totals kw w1 dfv tvo Hdf1 Ht1)
    as (v2 & E2 & Hc2 & _).
  destruct (lineplot_eval get_xlim get_ylim df totals kw w2 dfv tvo Hdf2 Ht2)
    as (v3 & E3 & _).
  rewrite H1 in E1. injection E1 as _ <-.
  rewrite H2 in E2. injection E2 as -> <-.
  rewrite H3 in E3. injection E3 as -> _.
  rewrite Hc2, Hc1. f_equal. apply outcome_same_cycle_again.
Qed.

Lemma lineplot_settled_after_first_call_witness :
  fst (lineplot margins_xlim margins_ylim df_loc (Some totals_loc) default_kw
         (snd (lineplot margins_xlim margins_ylim df_loc (Some totals_loc) default_kw
                 fresh_process)))
  = fst (lineplot margins_xlim margins_ylim df_loc (Some totals_loc) default_kw
           (snd (lineplot margins_xlim margins_ylim df_loc (Some totals_loc) default_kw
                   (snd (lineplot margins_xlim margins_ylim df_loc (Some totals_loc)
                           default_kw fresh_process))))).
Proof.
  eapply (lineplot_settled_after_first_call margins_xlim margins_ylim df_loc
           (Some totals_loc) default_kw fresh_process _ _ _ ex_df (Some ex_totals)
           (fst (lineplot margins_xlim margins_ylim df_loc (Some totals_loc) default_kw
                   fresh_process))).
  - reflexivity.
  - reflexivity.
  - apply surjective_pairing.
  - apply surjective_pairing.
  - apply surjective_pairing.
Defined.

(** X10.  What a call shows is what it returns: a call that returns a
    figure appends exactly this figure to the page and leaves seaborn's
    palette as the color cycle; a call that raises appends nothing, and
    leaves the color cycle it found or seaborn's palette. *)
Theorem lineplot_shows_what_it_returns (get_xlim get_ylim : Axes -> Q * Q)
    (df : loc) (totals : option loc) (kw : lineplot_kw)
    (w w' : world) (dfv : DataFrame) (tvo : option Series) (r : result Figure) :
  heap w !! df = Some (PyDataFrame dfv) ->
  refers_to w totals tvo ->
  lineplot get_xlim get_ylim df totals kw w = (r, w') ->
  match r with
  | Ok fig =>
      st_written w' = st_written w ++ [StFigure fig] /\ prop_cycle w' = Seaborn.deep
  | Raise _ =>
      st_written w' = st_written w /\
      (prop_cycle w' = prop_cycle w \/ prop_cycle w' = Seaborn.deep)
  end.
Proof.
  intros Hdf Ht Hrun.
  destruct (lineplot_eval get_xlim get_ylim df totals kw w dfv tvo Hdf Ht)
    as (v & E & Hc & Hs).
  rewrite Hrun in E. injection E as Hr <-.
  destruct r as [fig|e].
  - destruct (lineplot_ok_inv _ _ _ _ _ _ _ _ _ _ Hdf Ht Hrun) as (_ & _ & _ & Hd & Hp).
    split; assumption.
  - split; [rewrite Hs, <- Hr; reflexivity|].
    rewrite Hc. apply outcome_cycle.
Qed.

Lemma lineplot_shows_what_it_returns_witness :
  exists r w',
    lineplot margins_xlim margins_ylim df_loc (Some totals_loc) default_kw fresh_process
      = (r, w') /\
    match r with
    | Ok fig =>
        st_written w' = st_written fresh_process ++ [StFigure fig] /\
        prop_cycle w' = Seaborn.deep
    | Raise _ =>
        st_written w' = st_written fresh_process /\
        (prop_cycle w' = prop_cycle fresh_process \/ prop_cycle w' = Seaborn.deep)
    end.
Proof.
  eexists _, _. split; [vm_compute; reflexivity|].
  eapply (lineplot_shows_what_it_returns margins_xlim margins_ylim df_loc (Some totals_loc)
            default_kw fresh_process _ ex_df (Some ex_totals)).
  - reflexivity.
  - reflexivity.
  - vm_compute. reflexivity.
Defined.

(** X11.  A style name that seaborn does not know makes the call raise
    before anything is drawn: nothing is shown and the color cycle stays
    as it was.  The exception is the ValueError of [sns.set], or the
    IndexError of the default colors when these run out first. *)
Theorem lineplot_unknown_style (get_xlim get_ylim : Axes -> Q * Q)
    (df : loc) (totals : option loc) (kw : lineplot_kw)
    (w : world) (dfv : DataFrame) (tvo : option Series) :
  heap w !! df = Some (PyDataFrame dfv) ->
  refers_to w totals tvo ->
  ~ In (seaborn_style kw) Seaborn.styles ->
  exists e w',
    lineplot get_xlim get_ylim df totals kw w = (Raise e, w') /\
    (e = ValueError \/ e = IndexError /\ category_colors kw = None) /\
    prop_cycle w' = prop_cycle w /\
    st_written w' = st_written w.
Proof.
  intros Hdf Ht Hbad.
  destruct (lineplot_eval get_xlim get_ylim df totals kw w dfv tvo Hdf Ht)
    as (w' & Heval & Hc & Hs).
  rewrite lineplot_outcome_eq in Heval, Hc, Hs.
  assert (Hdec : bool_decide (seaborn_style kw ∈ Seaborn.styles) = false).
  { apply bool_decide_eq_false. rewrite list_elem_of_In. exact Hbad. }
  rewrite Hdec in Heval, Hc, Hs.
  destruct (category_colors kw) as [d|].
  - exists ValueError, w'. auto.
  - destruct (palette_dict 0 (prop_cycle w) (drawn_categories kw dfv) ∅) as [d|e] eqn:E.
    + exists ValueError, w'. auto.
    + apply palette_dict_raises in E. subst e. exists IndexError, w'. auto.
Qed.

Lemma lineplot_unknown_style_witness :
  exists e w',
    lineplot margins_xlim margins_ylim df_loc None bad_style_kw fresh_process
      = (Raise e, w') /\
    (e = ValueError \/ e = IndexError /\ category_colors bad_style_kw = None) /\
    prop_cycle w' = prop_cycle fresh_process /\
    st_written w' = st_written fresh_process.
Proof.
  apply (lineplot_unknown_style margins_xlim margins_ylim df_loc None bad_style_kw
           fresh_process ex_df None).
  - reflexivity.
  - exact I.
  - vm_compute. intuition discriminate.
Defined.

(** ** What is drawn *)

Lemma draw_category_texts (df : DataFrame) (kw : lineplot_kw)
    (colors : gmap string color) (ax ax' : Axes) (c : string) :
  draw_category df (df_index df) kw colors ax c = Ok ax' ->
  ax_texts ax' = ax_texts ax ++ category_labels df kw c /\
  (include_annotations kw = true -> is_Some (last (column_values df c))).
Proof.
  unfold draw_category, Pandas.getitem, dict_getitem, category_labels, column_values.
  destruct (assoc c (df_columns df)) as [ys|]; cbn [rbind]; [|discriminate].
  destruct (colors !! c) as [col|]; cbn [rbind]; [|discriminate].
  unfold Matplotlib.plot, Matplotlib.scatter. cbn [s_values ax_artists].
  destruct (Nat.eqb (length (df_index df)) (length ys));
    cbn [rbind ax_artists ax_texts ax_yscale]; [|discriminate].
  destruct (include_annotations kw).
  - unfold Pandas.iloc_last. cbn [s_values].
    destruct (last ys) as [y|]; cbn [rbind]; [|discriminate].
    intros H. injection H as <-. cbn [Matplotlib.annotate ax_texts].
    split; [|intros _; eexists; reflexivity].
    unfold edge_label. destruct (String.eqb (annotations_ha kw) "left"); reflexivity.
  - intros H. injection H as <-. cbn [ax_texts]. rewrite app_nil_r.
    split; [reflexivity|discriminate].
Qed.

Lemma draw_categories_texts (df : DataFrame) (kw : lineplot_kw)
    (colors : gmap string color) (cats : list string) : forall ax ax',
  draw_categories df (df_index df) kw colors ax cats = Ok ax' ->
  ax_texts ax' = ax_texts ax ++ flat_map (category_labels df kw) cats /\
  (include_annotations kw = true ->
   Forall (fun c => is_Some (last (column_values df c))) cats).
Proof.
  induction cats as [|c cats IH]; intros ax ax' H; cbn [draw_categories] in H.
  - injection H as <-. cbn [flat_map]. rewrite app_nil_r. split; [reflexivity|constructor].
  - destruct (draw_category df (df_index df) kw colors ax c) as [ax1|e] eqn:E;
      cbn [rbind] in H; [|discriminate].
    destruct (draw_category_texts _ _ _ _ _ _ E) as [Ht Hl].
    destruct (IH _ _ H) as [Ht' Hl'].
    split.
    + rewrite Ht', Ht. cbn [flat_map]. rewrite <- app_assoc. reflexivity.
    + intros Ha. constructor; auto.
Qed.

Lemma draw_totals_texts (xs : list Q) (t : Series) (kw : lineplot_kw) (ax ax' : Axes) :
  draw_totals xs t kw ax = Ok ax' -> ax_texts ax' = ax_texts ax.
Proof.
  unfold draw_totals, Matplotlib.plot, Matplotlib.scatter.
  destruct (Nat.eqb (length xs) (length (s_values t))); cbn [rbind]; [|discriminate].
  intros H. injection H as <-. reflexivity.
Qed.

(** The labels of a returned figure. *)
Lemma lineplot_figure_texts (get_xlim get_ylim : Axes -> Q * Q)
    (df : DataFrame) (tvo : option Series) (cats : list string)
    (colors : gmap string color) (kw : lineplot_kw) (fig : Figure) :
  lineplot_figure get_xlim get_ylim df tvo cats colors kw = Ok fig ->
  ax_texts (fig_axes fig) = flat_map (category_labels df kw) cats /\
  (include_annotations kw = true ->
   Forall (fun c => is_Some (last (column_values df c))) cats).
Proof.
  unfold lineplot_figure. intros H.
  destruct (draw_categories df (df_index df) kw colors Matplotlib.empty_axes cats)
    as [ax1|e] eqn:E1; cbn [rbind] in H; [|discriminate].
  destruct (draw_categories_texts _ _ _ _ _ _ E1) as [Ht1 Hl1].
  cbn [Matplotlib.empty_axes ax_texts app] in Ht1.
  destruct (match tvo with Some t => _ | None => _ end) as [ax2|e] eqn:E2;
    cbn [rbind] in H; [|discriminate].
  assert (Ht2 : ax_texts ax2 = ax_texts ax1).
  { destruct tvo as [t|]; [eapply draw_totals_texts, E2|]. injection E2 as <-. reflexivity. }
  destruct (match xtick_spacing kw with Some spacing => _ | None => _ end);
    cbn [rbind] in H; [|discriminate].
  destruct (match ytick_spacing kw with Some spacing => _ | None => _ end);
    cbn [rbind] in H; [|discriminate].
  injection H as <-. cbn [fig_axes Matplotlib.set_yscale ax_texts].
  split; [congruence|exact Hl1].
Qed.

(** X12.  With [include_annotations], a returned figure carries one label
    per category drawn, in drawing order and none for the totals: the
    category's name, placed at the right edge of the axes at the height
    of the last value of its series, which in cumulative mode is the sum
    of the category's column.  Without [include_annotations] the figure
    has no labels. *)
Theorem lineplot_annotations (get_xlim get_ylim : Axes -> Q * Q)
    (df : loc) (totals : option loc) (kw : lineplot_kw)
    (w w' : world) (dfv : DataFrame) (tvo : option Series) (fig : Figure) :
  heap w !! df = Some (PyDataFrame dfv) ->
  refers_to w totals tvo ->
  lineplot get_xlim get_ylim df totals kw w = (Ok fig, w') ->
  if include_annotations kw then
    Forall2 (fun c a =>
               exists y,
                 last (column_values (drawn_table kw dfv) c) = Some y /\
                 a = edge_label kw c y /\
                 (cumulative kw = true -> y == Qsum (column_values dfv c)))
            (drawn_categories kw dfv) (ax_texts (fig_axes fig))
  else ax_texts (fig_axes fig) = [].
Proof.
  intros Hdf Ht Hrun.
  destruct (lineplot_ok_inv _ _ _ _ _ _ _ _ _ _ Hdf Ht Hrun) as (colors & _ & Hfig & _).
  fold (drawn_table kw dfv) in Hfig.
  destruct (lineplot_figure_texts _ _ _ _ _ _ _ _ Hfig) as [Htexts Hlast].
  rewrite Htexts. clear Htexts Hfig Hrun.
  unfold category_labels.
  destruct (include_annotations kw).
  - specialize (Hlast eq_refl).
    induction Hlast as [|c cats [y Hy] _ IH]; cbn [flat_map]; [constructor|].
    rewrite Hy. cbn [app]. constructor; [|exact IH].
    exists y. split; [exact Hy|]. split; [reflexivity|].
    intros Hcum. unfold drawn_table in Hy. rewrite Hcum, column_values_cumsum in Hy.
    apply cumsum_last, Hy.
  - clear Hlast. induction (drawn_categories kw dfv) as [|c cats IH]; [reflexivity|exact IH].
Qed.

Lemma lineplot_annotations_witness :
  exists fig w',
    lineplot margins_xlim margins_ylim df_loc (Some totals_loc) annotated_kw fresh_process
      = (Ok fig, w') /\
    Forall2 (fun c a =>
               exists y,
                 last (column_values (drawn_table annotated_kw ex_df) c) = Some y /\
                 a = edge_label annotated_kw c y /\
                 (cumulative annotated_kw = true -> y == Qsum (column_values ex_df c)))
            (drawn_categories annotated_kw ex_df) (ax_texts (fig_axes fig)).
Proof.
  eexists _, _. split; [vm_compute; reflexivity|].
  eapply (lineplot_annotations margins_xlim margins_ylim df_loc (Some totals_loc)
            annotated_kw fresh_process _ ex_df (Some ex_totals)).
  - reflexivity.
  - reflexivity.
  - vm_compute. reflexivity.
Defined.

Lemma draw_category_no_rows (df : DataFrame) (kw : lineplot_kw)
    (colors : gmap string color) (ax : Axes) (c : string) :
  df_index df = [] ->
  include_annotations kw = true ->
  exists e, draw_category df (df_index df) kw colors ax c = Raise e.
Proof.
  intros Hidx Hann.
  destruct (draw_category df (df_index df) kw colors ax c) as [ax'|e] eqn:E;
    [|exists e; reflexivity].
  exfalso.
  destruct (draw_category_inv _ _ _ _ _ _ E) as ((ys & col & Hys & _ & Hlen) & _).
  destruct (draw_category_texts _ _ _ _ _ _ E) as [_ Hl].
  destruct (Hl Hann) as [y Hy].
  unfold column_values in Hy. rewrite Hys in Hy.
  rewrite Hidx in Hlen. destruct ys; [discriminate Hy|discriminate Hlen].
Qed.

(** X13.  A table without rows cannot be annotated: with
    [include_annotations] and at least one category to draw, a call on a
    table whose index is empty raises a KeyError, IndexError or
    ValueError and shows nothing. *)
Theorem lineplot_annotations_need_rows (get_xlim get_ylim : Axes -> Q * Q)
    (df : loc) (totals : option loc) (kw : lineplot_kw)
    (w : world) (dfv : DataFrame) (tvo : option Series) :
  heap w !! df = Some (PyDataFrame dfv) ->
  refers_to w totals tvo ->
  df_index dfv = [] ->
  include_annotations kw = true ->
  drawn_categories kw dfv <> [] ->
  exists e w',
    lineplot get_xlim get_ylim df totals kw w = (Raise e, w') /\
    ValidationError e /\
    st_written w' = st_written w.
Proof.
  intros Hdf Ht Hidx Hann Hcats.
  destruct (lineplot get_xlim get_ylim df totals kw w) as [[fig|e] w'] eqn:Hrun.
  - exfalso.
    destruct (lineplot_ok_inv _ _ _ _ _ _ _ _ _ _ Hdf Ht Hrun) as (colors & _ & Hfig & _).
    fold (drawn_table kw dfv) in Hfig.
    unfold lineplot_figure in Hfig.
    destruct (drawn_categories kw dfv) as [|c cats]; [contradiction|].
    cbn [draw_categories] in Hfig.
    destruct (draw_category_no_rows (drawn_table kw dfv) kw colors Matplotlib.empty_axes c)
      as [e He]; [rewrite df_index_table; exact Hidx|exact Hann|].
    rewrite He in Hfig. discriminate.
  - exists e, w'. split; [reflexivity|].
    split; [|eapply lineplot_raise_page; eassumption].
    destruct (lineplot_eval get_xlim get_ylim df totals kw w dfv tvo Hdf Ht)
      as (v & E & _).
    rewrite Hrun in E. injection E as Hr _.
    rewrite lineplot_outcome_eq in Hr.
    destruct (match category_colors kw with Some d => _ | None => _ end) as [colors|e0] eqn:Ec.
    + destruct (bool_decide _); cbn [fst] in Hr.
      * unfold lineplot_figure in Hr.
        destruct (draw_categories _ _ _ _ _ _) as [ax1|e1] eqn:E1; cbn [rbind] in Hr.
        -- exfalso.
           destruct (drawn_categories kw dfv) as [|c cats]; [contradiction|].
           cbn [draw_categories] in E1.
           destruct (draw_category_no_rows (drawn_table kw dfv) kw colors
                       Matplotlib.empty_axes c)
             as [e2 He]; [rewrite df_index_table; exact Hidx|exact Hann|].
           rewrite He in E1. discriminate.
        -- injection Hr as ->. eapply draw_categories_raises, E1.
      * injection Hr as ->. exact I.
    + cbn [fst] in Hr. injection Hr as ->.
      destruct (category_colors kw); [discriminate|].
      apply palette_dict_raises in Ec. subst e0. exact I.
Qed.

Lemma lineplot_annotations_need_rows_witness :
  exists e w',
    lineplot margins_xlim margins_ylim empty_loc None annotated_kw narrow_process
      = (Raise e, w') /\
    ValidationError e /\
    st_written w' = st_written narrow_process.
Proof.
  apply (lineplot_annotations_need_rows margins_xlim margins_ylim empty_loc None
           annotated_kw narrow_process empty_df None).
  - reflexivity.
  - exact I.
  - reflexivity.
  - reflexivity.
  - discriminate.
Defined.

Lemma category_artists_shape (df : DataFrame) (kw : lineplot_kw)
    (colors : gmap string color) (c : string) :
  present df colors c ->
  Forall (fun a => artist_xs a = df_index df /\
                   length (artist_ys a) = length (df_index df))
         (category_artists df kw colors c) /\
  length (category_artists df kw colors c) = 2%nat.
Proof.
  intros (ys & col & Hys & Hcol & Hlen). unfold category_artists. rewrite Hys, Hcol.
  split; [|reflexivity].
  repeat constructor; cbn [artist_xs artist_ys]; auto.
Qed.

(** X14.  Every series of a returned figure spans the whole index: each
    line and each set of markers has the index of the table as its x
    values and one y value per index entry.  There are two of them (the
    line and the markers) per category drawn, and two more for the
    totals. *)
Theorem lineplot_series_span_index (get_xlim get_ylim : Axes -> Q * Q)
    (df : loc) (totals : option loc) (kw : lineplot_kw)
    (w w' : world) (dfv : DataFrame) (tvo : option Series) (fig : Figure) :
  heap w !! df = Some (PyDataFrame dfv) ->
  refers_to w totals tvo ->
  lineplot get_xlim get_ylim df totals kw w = (Ok fig, w') ->
  Forall (fun a => artist_xs a = df_index dfv /\
                   length (artist_ys a) = length (df_index dfv))
         (ax_artists (fig_axes fig)) /\
  length (ax_artists (fig_axes fig))
    = (2 * length (drawn_categories kw dfv)
       + match tvo with Some _ => 2 | None => 0 end)%nat.
Proof.
  intros Hdf Ht Hrun.
  destruct (lineplot_ok_inv _ _ _ _ _ _ _ _ _ _ Hdf Ht Hrun) as (colors & _ & Hfig & _).
  fold (drawn_table kw dfv) in Hfig.
  destruct (lineplot_figure_inv _ _ _ _ _ _ _ _ Hfig) as (Hall & Htot & Hart & _).
  rewrite Hart. rewrite df_index_table in Htot. clear Hart Hfig Hrun.
  assert (Hcat :
    Forall (fun a => artist_xs a = df_index dfv /\
                     length (artist_ys a) = length (df_index dfv))
           (flat_map (category_artists (drawn_table kw dfv) kw colors)
                     (drawn_categories kw dfv)) /\
    length (flat_map (category_artists (drawn_table kw dfv) kw colors)
                     (drawn_categories kw dfv))
      = (2 * length (drawn_categories kw dfv))%nat).
  { induction Hall as [|c cats Hc _ [IH1 IH2]]; [split; [constructor|reflexivity]|].
    destruct (category_artists_shape (drawn_table kw dfv) kw colors c Hc) as [Hs Hl].
    rewrite df_index_table in Hs.
    cbn [flat_map length]. split.
    - apply Forall_app. split; assumption.
    - rewrite length_app, Hl, IH2. lia. }
  destruct Hcat as [Hc1 Hc2].
  split.
  - apply Forall_app. split; [exact Hc1|].
    destruct (if cumulative kw then option_map Pandas.s_cumsum tvo else tvo) as [t|] eqn:Et;
      cbn [totals_artists]; [|constructor].
    rewrite df_index_table.
    repeat constructor; cbn [artist_xs artist_ys]; symmetry; apply (Htot t eq_refl).
  - rewrite length_app, Hc2. f_equal.
    destruct (cumulative kw), tvo; reflexivity.
Qed.

Lemma lineplot_series_span_index_witness :
  exists fig w',
    lineplot margins_xlim margins_ylim df_loc (Some totals_loc) cumulative_kw fresh_process
      = (Ok fig, w') /\
    Forall (fun a => artist_xs a = df_index ex_df /\
                     length (artist_ys a) = length (df_index ex_df))
           (ax_artists (fig_axes fig)) /\
    length (ax_artists (fig_axes fig))
      = (2 * length (drawn_categories cumulative_kw ex_df) + 2)%nat.
Proof.
  eexists _, _. split; [vm_compute; reflexivity|].
  eapply (lineplot_series_span_index margins_xlim margins_ylim df_loc (Some totals_loc)
            cumulative_kw fresh_process _ ex_df (Some ex_totals)).
  - reflexivity.
  - reflexivity.
  - vm_compute. reflexivity.
Defined.

(** X15.  Without [cumulative] the series drawn are the data as given:
    every category's series is its column of the table, the series
    labelled "Total" is the totals, and the series come in the order of
    the categories with the totals last. *)
Theorem lineplot_instantaneous_draws_data (get_xlim get_ylim : Axes -> Q * Q)
    (df : loc) (totals : option loc) (kw : lineplot_kw)
    (w w' : world) (dfv : DataFrame) (tvo : option Series) (fig : Figure) :
  cumulative kw = false ->
  heap w !! df = Some (PyDataFrame dfv) ->
  refers_to w totals tvo ->
  lineplot get_xlim get_ylim df totals kw w = (Ok fig, w') ->
  Forall (fun c => In c (Pandas.columns dfv)) (drawn_categories kw dfv) /\
  plotted_series fig
    = map (fun c => (c, column_values dfv c)) (drawn_categories kw dfv)
      ++ match tvo with
         | Some t => [("Total"%string, s_values t)]
         | None => []
         end /\
  plotted_lines fig
    = map (column_values dfv) (drawn_categories kw dfv)
      ++ match tvo with
         | Some t => [s_values t]
         | None => []
         end.
Proof.
  intros Hcum Hdf Ht Hrun.
  destruct (lineplot_ok_inv _ _ _ _ _ _ _ _ _ _ Hdf Ht Hrun) as (colors & _ & Hfig & _).
  rewrite Hcum in Hfig.
  destruct (lineplot_figure_inv _ _ _ _ _ _ _ _ Hfig) as (Hall & _ & Hart & _).
  split.
  { eapply Forall_impl; [exact Hall|]. intros c Hc. apply (present_column dfv colors), Hc. }
  split.
  - apply (series_of_artists _ _ _ _ _ _ Hall Hart).
  - apply (lines_of_artists _ _ _ _ _ _ Hall Hart).
Qed.

Lemma lineplot_instantaneous_draws_data_witness :
  exists fig w',
    lineplot margins_xlim margins_ylim df_loc (Some totals_loc) default_kw fresh_process
      = (Ok fig, w') /\
    Forall (fun c => In c (Pandas.columns ex_df)) (drawn_categories default_kw ex_df) /\
    plotted_series fig
      = map (fun c => (c, column_values ex_df c)) (drawn_categories default_kw ex_df)
        ++ [("Total"%string, s_values ex_totals)] /\
    plotted_lines fig
      = map (column_values ex_df) (drawn_categories default_kw ex_df)
        ++ [s_values ex_totals].
Proof.
  eexists _, _. split; [vm_compute; reflexivity|].
  eapply (lineplot_instantaneous_draws_data margins_xlim margins_ylim df_loc
            (Some totals_loc) default_kw fresh_process _ ex_df (Some ex_totals)).
  - reflexivity.
  - reflexivity.
  - reflexivity.
  - vm_compute. reflexivity.
Defined.

(** ** Ticks *)

Lemma arange_zero_step (lo hi s : Q) :
  s == 0 -> exists e, Matplotlib.arange lo hi s = Raise e.
Proof.
  intros Hs. unfold Matplotlib.arange.
  apply Qeq_bool_iff in Hs. rewrite Hs. eexists; reflexivity.
Qed.

Lemma arange_length (lo hi s : Q) (ticks : list Q) :
  Matplotlib.arange lo hi s = Ok ticks ->
  length ticks = Z.to_nat (Qceiling ((hi - lo) / s)).
Proof.
  unfold Matplotlib.arange. destruct (Qeq_bool s 0); [discriminate|].
  intros H. injection H as <-. rewrite length_map, length_seq. reflexivity.
Qed.

(** Stepping away from the upper bound gives no value at all. *)
Lemma arange_backwards (lo hi s : Q) (ticks : list Q) :
  Matplotlib.arange lo hi s = Ok ticks ->
  s < 0 -> lo <= hi -> ticks = [].
Proof.
  intros H Hs Hle. apply length_zero_iff_nil. rewrite (arange_length _ _ _ _ H).
  assert (Hnz : ~ s == 0) by lra.
  pose proof (Qdiv_mult_cancel (hi - lo) s Hnz) as Hx.
  set (x := (hi - lo) / s) in *.
  assert (Hx0 : x <= 0).
  { apply Qnot_lt_le. intros Hpos. nra. }
  apply Qceiling_resp_le in Hx0. change (Qceiling 0) with 0%Z in Hx0. lia.
Qed.

(** X16.  A tick spacing of zero, for the x or the y ticks, makes the
    call raise; no figure is shown. *)
Theorem lineplot_zero_tick_spacing (get_xlim get_ylim : Axes -> Q * Q)
    (df : loc) (totals : option loc) (kw : lineplot_kw)
    (w : world) (dfv : DataFrame) (tvo : option Series) (s : Q) :
  heap w !! df = Some (PyDataFrame dfv) ->
  refers_to w totals tvo ->
  xtick_spacing kw = Some s \/ ytick_spacing kw = Some s ->
  s == 0 ->
  exists e w',
    lineplot get_xlim get_ylim df totals kw w = (Raise e, w') /\
    st_written w' = st_written w.
Proof.
  intros Hdf Ht Hsp Hs.
  destruct (lineplot get_xlim get_ylim df totals kw w) as [[fig|e] w'] eqn:Hrun.
  - exfalso.
    destruct (lineplot_ok_inv _ _ _ _ _ _ _ _ _ _ Hdf Ht Hrun) as (colors & _ & Hfig & _).
    destruct (lineplot_figure_inv _ _ _ _ _ _ _ _ Hfig)
      as (_ & _ & _ & _ & Hx & Hy & _).
    destruct Hsp as [Hsp|Hsp]; rewrite Hsp in *.
    + destruct (arange_zero_step (fst (x_bounds get_xlim kw fig))
                  (snd (x_bounds get_xlim kw fig)) s Hs) as [e He].
      congruence.
    + destruct Hy as (ticks & _ & Hy).
      destruct (arange_zero_step (fst (y_bounds get_ylim kw fig))
                  (snd (y_bounds get_ylim kw fig)) s Hs) as [e He].
      congruence.
  - exists e, w'. split; [reflexivity|]. eapply lineplot_raise_page; eassumption.
Qed.

Lemma lineplot_zero_tick_spacing_witness :
  exists e w',
    lineplot margins_xlim margins_ylim df_loc None zero_spacing_kw fresh_process
      = (Raise e, w') /\
    st_written w' = st_written fresh_process.
Proof.
  apply (lineplot_zero_tick_spacing margins_xlim margins_ylim df_loc None zero_spacing_kw
           fresh_process ex_df None (0 # 1)).
  - reflexivity.
  - exact I.
  - right. reflexivity.
  - reflexivity.
Defined.

(** X17.  A negative tick spacing gives an axis without ticks: when the
    bounds are in order, the figure has no x ticks for a negative
    [xtick_spacing] and no y ticks for a negative [ytick_spacing]. *)
Theorem lineplot_negative_tick_spacing (get_xlim get_ylim : Axes -> Q * Q)
    (df : loc) (totals : option loc) (kw : lineplot_kw)
    (w w' : world) (dfv : DataFrame) (tvo : option Series) (fig : Figure) :
  heap w !! df = Some (PyDataFrame dfv) ->
  refers_to w totals tvo ->
  lineplot get_xlim get_ylim df totals kw w = (Ok fig, w') ->
  (forall s, xtick_spacing kw = Some s -> s < 0 ->
     fst (x_bounds get_xlim kw fig) <= snd (x_bounds get_xlim kw fig) ->
     fig_xticks fig = []) /\
  (forall s, ytick_spacing kw = Some s -> s < 0 ->
     fst (y_bounds get_ylim kw fig) <= snd (y_bounds get_ylim kw fig) ->
     fig_yticks fig = Some []).
Proof.
  intros Hdf Ht Hrun.
  destruct (lineplot_ok_inv _ _ _ _ _ _ _ _ _ _ Hdf Ht Hrun) as (colors & _ & Hfig & _).
  destruct (lineplot_figure_inv _ _ _ _ _ _ _ _ Hfig)
    as (_ & _ & _ & _ & Hx & Hy & _).
  split; intros s Hsp Hneg Hle; rewrite Hsp in *.
  - eapply arange_backwards; eassumption.
  - destruct Hy as (ticks & -> & Hy). f_equal. eapply arange_backwards; eassumption.
Qed.

Lemma lineplot_negative_tick_spacing_witness :
  exists fig w',
    lineplot margins_xlim margins_ylim df_loc None backwards_kw fresh_process
      = (Ok fig, w') /\
    (forall s, xtick_spacing backwards_kw = Some s -> s < 0 ->
       fst (x_bounds margins_xlim backwards_kw fig)
         <= snd (x_bounds margins_xlim backwards_kw fig) ->
       fig_xticks fig = []) /\
    (forall s, ytick_spacing backwards_kw = Some s -> s < 0 ->
       fst (y_bounds margins_ylim backwards_kw fig)
         <= snd (y_bounds margins_ylim backwards_kw fig) ->
       fig_yticks fig = Some []).
Proof.
  eexists _, _. split; [vm_compute; reflexivity|].
  eapply (lineplot_negative_tick_spacing margins_xlim margins_ylim df_loc None
            backwards_kw fresh_process _ ex_df None).
  - reflexivity.
  - exact I.
  - vm_compute. reflexivity.
Defined.



End LineplotMore.

(** * Further properties of [DataViewer.write] *)

Module WriteMore.
Import Frame PandasFacts Run.

(** A call without [data_key] is the call with the key the radio gives. *)
Lemma write_effective (data : list (string * loc)) (data_key : option string)
    (st_loc : st_container) (columns : option (list string)) (k : string) :
  effective_key data data_key st_loc = Some k ->
  write data data_key st_loc columns = write data (Some k) st_loc columns.
Proof.
  unfold effective_key, write. destruct data_key as [k'|].
  - intros H. injection H as ->. reflexivity.
  - intros ->. reflexivity.
Qed.

Lemma write_not_found (data : list (string * loc)) (data_key : option string)
    (st_loc : st_container) (columns : option (list string)) (w : world) :
  effective_key data data_key st_loc ≫= (fun k => assoc k data) = None ->
  write data data_key st_loc columns w
  = (Ok tt, mkWorld (heap w) (prop_cycle w)
              (st_written w ++
                 [StText (py_str (effective_key data data_key st_loc)
                          ++ " not found in data")])).
Proof.
  unfold effective_key, write. intros H.
  destruct data_key as [k|]; rewrite H; reflexivity.
Qed.

(** X19.  Every call of [write] on a dict of dataframes ends in one of
    three ways, whether the key is given or chosen with the radio.  For
    a key that is not in [data] (or no choice at all) it shows the text
    that the key was not found and returns.  For a key of [data] it
    shows the whole dataframe stored under the key and returns, unless
    [columns] names a label that is not a column: then it raises the
    KeyError of that label and changes nothing.  It never raises
    anything else. *)
Theorem write_outcomes (data : list (string * loc)) (data_key : option string)
    (st_loc : st_container) (columns : option (list string))
    (w w' : world) (r : result unit) :
  holds_dataframes w data ->
  write data data_key st_loc columns w = (r, w') ->
  match effective_key data data_key st_loc ≫= (fun k => assoc k data) with
  | None =>
      r = Ok tt /\
      st_written w' = st_written w ++
        [StText (py_str (effective_key data data_key st_loc) ++ " not found in data")]
  | Some l =>
      exists dfv,
        heap w !! l = Some (PyDataFrame dfv) /\
        ((r = Ok tt /\
          st_written w' = st_written w ++ [StObject (PyDataFrame dfv)] /\
          forall cols, columns = Some cols ->
                       Forall (fun c => In c (Pandas.columns dfv)) cols) \/
         (exists cols c,
             columns = Some cols /\ In c cols /\ ~ In c (Pandas.columns dfv) /\
             r = Raise (KeyError c) /\ w' = w))
  end.
Proof.
  intros Hdata Hrun.
  destruct (effective_key data data_key st_loc ≫= (fun k => assoc k data)) as [l|] eqn:El.
  - destruct (effective_key data data_key st_loc) as [k|] eqn:Ek; [|discriminate].
    cbn in El.
    destruct (Hdata k l El) as [dfv Hl].
    exists dfv. split; [exact Hl|].
    rewrite (write_effective _ _ _ _ _ Ek) in Hrun.
    pose proof (write_eval data k st_loc columns w l dfv El Hl) as Hev.
    destruct columns as [cols|].
    + destruct (Pandas.select_columns (df_columns dfv) cols) as [sel|e] eqn:Es.
      * destruct Hev as (w1 & Hw & Hs). rewrite Hrun in Hw. injection Hw as -> ->.
        left. split; [reflexivity|]. split; [exact Hs|].
        intros cols' Hc. injection Hc as <-.
        apply List.Forall_forall. intros c Hin.
        destruct (In_dec string_dec c (Pandas.columns dfv)) as [Hyes|Hno]; [exact Hyes|].
        exfalso.
        assert (Hnot : ~ Forall (fun c => In c (Pandas.columns dfv)) cols).
        { intros Hall. rewrite List.Forall_forall in Hall. exact (Hno (Hall c Hin)). }
        destruct (select_columns_missing _ _ Hnot) as (c' & Hraise & _ & _).
        congruence.
      * rewrite Hrun in Hev. injection Hev as -> ->.
        right.
        destruct (List.Forall_dec (fun c => In c (Pandas.columns dfv))
                    (fun c => In_dec string_dec c (Pandas.columns dfv)) cols)
          as [Hall|Hnot].
        -- exfalso. destruct (select_columns_ok _ _ Hall) as [sel Hsel]. congruence.
        -- destruct (select_columns_missing _ _ Hnot) as (c & Hraise & Hin & Hno).
           exists cols, c. rewrite Hraise in Es. injection Es as <-. auto.
    + rewrite Hrun in Hev. injection Hev as -> ->.
      left. split; [reflexivity|]. split; [reflexivity|]. discriminate.
  - rewrite (write_not_found _ _ _ _ _ El) in Hrun. injection Hrun as <- <-.
    split; reflexivity.
Qed.

Lemma write_outcomes_witness :
  exists r w',
    write ex_data None ex_container (Some ["B"; "Z"]%string) fresh_process = (r, w') /\
    match effective_key ex_data None ex_container ≫= (fun k => assoc k ex_data) with
    | None =>
        r = Ok tt /\
        st_written w' = st_written fresh_process ++
          [StText (py_str (effective_key ex_data None ex_container)
                   ++ " not found in data")]
    | Some l =>
        exists dfv,
          heap fresh_process !! l = Some (PyDataFrame dfv) /\
          ((r = Ok tt /\
            st_written w' = st_written fresh_process ++ [StObject (PyDataFrame dfv)] /\
            forall cols, Some ["B"; "Z"]%string = Some cols ->
                         Forall (fun c => In c (Pandas.columns dfv)) cols) \/
           (exists cols c,
               Some ["B"; "Z"]%string = Some cols /\ In c cols /\
               ~ In c (Pandas.columns dfv) /\
               r = Raise (KeyError c) /\ w' = fresh_process))
    end.
Proof.
  eexists _, _. split; [vm_compute; reflexivity|].
  eapply (write_outcomes ex_data None ex_container (Some ["B"; "Z"]%string) fresh_process).
  - intros k l Hk. unfold ex_data in Hk. cbn [assoc] in Hk.
    destruct (String.eqb "counts" k); [|discriminate].
    injection Hk as <-. exists ex_df. reflexivity.
  - vm_compute. reflexivity.
Defined.

(** X20.  [write] does not touch what it is given: whatever the outcome,
    every object of the store is as before and the color cycle is
    unchanged; the page keeps what it had and gets at most one new
    element, and none when the call raises. *)
Theorem write_leaves_state (data : list (string * loc)) (data_key : option string)
    (st_loc : st_container) (columns : option (list string))
    (w w' : world) (r : result unit) :
  write data data_key st_loc columns w = (r, w') ->
  heap_preserved w w' /\
  prop_cycle w' = prop_cycle w /\
  exists shown,
    st_written w' = st_written w ++ shown /\
    (length shown <= 1)%nat /\
    (r <> Ok tt -> shown = []).
Proof.
  intros Hrun.
  split; [exact (preserves_write _ _ _ _ _ _ _ Hrun)|].
  revert Hrun. unfold write.
  destruct (_ ≫= _) as [l|].
  - unfold bind at 1.
    assert (Hfirst : forall r1 w1,
      (match columns with
       | Some cols => DataFrame_getitem_list l cols
       | None => ret l
       end) w = (r1, w1) ->
      prop_cycle w1 = prop_cycle w /\ st_written w1 = st_written w).
    { intros r1 w1. destruct columns as [cols|].
      - unfold DataFrame_getitem_list, load_DataFrame, bind, load, lift, ret, alloc.
        destruct (heap w !! l) as [[dfv|s]|];
          [|intros H; injection H as <- <-; split; reflexivity..].
        destruct (Pandas.getitem_list dfv cols);
          intros H; injection H as <- <-; split; reflexivity.
      - intros H. injection H as <- <-. split; reflexivity. }
    destruct ((match columns with
               | Some cols => DataFrame_getitem_list l cols
               | None => ret l
               end) w) as [[l1|e] w1] eqn:E1;
      destruct (Hfirst _ _ eq_refl) as [Hc Hs].
    + unfold bind, load, st_write.
      destruct (heap w1 !! l) as [o|]; intros H; injection H as <- <-.
      * cbn [prop_cycle st_written]. split; [exact Hc|].
        exists [StObject o]. rewrite Hs. split; [reflexivity|]. split; [cbn; lia|].
        intros Hne. contradiction.
      * split; [exact Hc|]. exists []. rewrite app_nil_r.
        split; [exact Hs|]. split; [cbn; lia|reflexivity].
    + intros H. injection H as <- <-.
      split; [exact Hc|]. exists []. rewrite app_nil_r.
      split; [exact Hs|]. split; [cbn; lia|reflexivity].
  - unfold st_write. intros H. injection H as <- <-. cbn [prop_cycle st_written].
    split; [reflexivity|]. eexists. split; [reflexivity|]. split; [cbn; lia|].
    intros Hne. contradiction.
Qed.

Lemma write_leaves_state_witness :
  heap_preserved fresh_process
    (snd (write ex_data (Some "counts"%string) ex_container (Some ["A"%string])
            fresh_process)) /\
  prop_cycle (snd (write ex_data (Some "counts"%string) ex_container (Some ["A"%string])
                     fresh_process)) = prop_cycle fresh_process /\
  exists shown,
    st_written (snd (write ex_data (Some "counts"%string) ex_container (Some ["A"%string])
                       fresh_process)) = st_written fresh_process ++ shown /\
    (length shown <= 1)%nat /\
    (fst (write ex_data (Some "counts"%string) ex_container (Some ["A"%string])
            fresh_process) <> Ok tt -> shown = []).
Proof.
  apply (write_leaves_state ex_data (Some "counts"%string) ex_container
           (Some ["A"%string]) fresh_process).
  apply surjective_pairing.
Defined.

End WriteMore.
